(** * agent-for-gitlab: session store, agent invocation and orchestrator

    A shallow embedding of [scripts/src/session.js], [scripts/src/opencode.js]
    (both revisions) and [scripts/src/runner.js], with the properties of the
    design document stated over it.

    JavaScript strings are sequences of UTF-16 code units; numbers are IEEE-754
    binary64 values (Rocq's primitive floats); the file system, the shell, the
    network and the imported collaborator modules are an explicit environment
    that every operation is parametrised by. *)

From Stdlib Require Import ZArith NArith List String Ascii Bool Lia Floats.
From stdpp Require Import base option list gmap.

Set Warnings "-inexact-float,-register-all".
Set Default Proof Using "Type".
Open Scope Z_scope.

(* ===================================================================== *)
(** ** JavaScript strings *)
(* ===================================================================== *)

Module JsString.

(** A string value: its UTF-16 code units. *)
Abbreviation jsstring := (list N).

(** A source-code literal (ASCII only). *)
Definition lit (s : string) : jsstring :=
  List.map N_of_ascii (list_ascii_of_string s).

(** WhiteSpace and LineTerminator code units, as [String.prototype.trim]
    strips them. *)
Definition is_ws (c : N) : bool :=
  ((9 <=? c) && (c <=? 13) || (c =? 32) || (c =? 160) || (c =? 5760)
   || (8192 <=? c) && (c <=? 8202) || (c =? 8232) || (c =? 8233)
   || (c =? 8239) || (c =? 8287) || (c =? 12288) || (c =? 65279))%N.

Fixpoint trimStart (s : jsstring) : jsstring :=
  match s with
  | c :: r => if is_ws c then trimStart r else s
  | [] => []
  end.

Definition trimEnd (s : jsstring) : jsstring := rev (trimStart (rev s)).

(** [s.trim()] *)
Definition trim (s : jsstring) : jsstring := trimEnd (trimStart s).

(** [s.split(c)] for a separator of one code unit: never the empty array,
    [[""]] on the empty string. *)
Fixpoint split_on (c : N) (s : jsstring) : list jsstring :=
  match s with
  | [] => [[]]
  | x :: r =>
      if (x =? c)%N then [] :: split_on c r
      else match split_on c r with
           | h :: t => (x :: h) :: t
           | [] => [[x]]
           end
  end.

(** [a.join(sep)] *)
Fixpoint join (sep : jsstring) (l : list jsstring) : jsstring :=
  match l with
  | [] => []
  | [x] => x
  | x :: r => x ++ sep ++ join sep r
  end.

(** [s.startsWith(p)] *)
Fixpoint startsWith (p s : jsstring) : bool :=
  match p, s with
  | [], _ => true
  | a :: p', b :: s' => (a =? b)%N && startsWith p' s'
  | _ :: _, [] => false
  end.

(** [s.includes(needle)] *)
Fixpoint includes (needle s : jsstring) : bool :=
  startsWith needle s
  || match s with
     | [] => false
     | _ :: r => includes needle r
     end.

(** [s.substring(0, n)] *)
Definition substring0 (n : nat) (s : jsstring) : jsstring := take n s.

(** Truthiness of a string: non-empty. *)
Definition truthy (s : jsstring) : bool :=
  match s with [] => false | _ :: _ => true end.

(** A possibly-undefined string interpolated in a template literal. *)
Definition tmpl (o : option jsstring) : jsstring :=
  match o with Some s => s | None => lit "undefined" end.

(** [o || d] on a possibly-undefined string. *)
Definition or_else (o : option jsstring) (d : jsstring) : jsstring :=
  match o with
  | Some s => if truthy s then s else d
  | None => d
  end.

(** The double-quote character, as a one-unit string. *)
Definition dquote : jsstring := [34%N].

Definition slash : N := 47.
Definition newline : N := 10.

#[global] Arguments lit : simpl never.
#[global] Arguments trim : simpl never.

End JsString.
Import JsString.

(* ===================================================================== *)
(** ** The world a run executes in *)
(* ===================================================================== *)

Module World.

(** A thrown [Error], identified by its [message]. *)
Abbreviation Exn := jsstring.

Inductive Node : Type :=
| Dir
| File (content : list N).

(** The file system: absolute path to node. *)
Abbreviation FS := (gmap jsstring Node).

(** The fields of the run context that the three modules read.  [context.js]
    builds it from the CI environment; the fields the code guards with [||]
    or [?.] may be undefined. *)
Record Context : Type := {
  projectPath : option jsstring;
  author : option jsstring;
  branch : jsstring;
  prompt : option jsstring;
  agentPrompt : option jsstring;
  opencodeModel : jsstring;
  resourceId : option jsstring;
  projectId : jsstring;
  dataStorageApiUrl : option jsstring;
  dataStorageApiKey : option jsstring;
}.

(** The context [c] with another project id and branch. *)
Definition with_ids (c : Context) (pid br : jsstring) : Context :=
  {| projectPath := projectPath c; author := author c; branch := br;
     prompt := prompt c; agentPrompt := agentPrompt c;
     opencodeModel := opencodeModel c; resourceId := resourceId c;
     projectId := pid; dataStorageApiUrl := dataStorageApiUrl c;
     dataStorageApiKey := dataStorageApiKey c |}.

Inductive Level : Type := LInfo | LWarn | LError | LSuccess | LStart.

(** The pieces of a log line, before rendering. *)
Inductive Piece : Type :=
| PStr (s : jsstring)
| PInt (z : Z)
| PFixed6 (x : float)
| PNull
| PCwd.

(** A null-able string passed to the logger as an argument of its own. *)
Definition piece_of (o : option jsstring) : Piece :=
  match o with Some s => PStr s | None => PNull end.

Inductive Method : Type := GET | PUT | POST.

(** The JSON body [reportToSupabase] posts. *)
Record Telemetry : Type := {
  gitlab_id : option jsstring;
  title : jsstring;
  status : jsstring;
  ai_attempted : bool;
  ai_solved : bool;
  tokens_used : Z;
  cost_usd : float;
  ai_time_seconds : Z;
  dev_time_seconds : Z;
}.

Inductive Body : Type :=
| NoBody
| Bytes (b : list N)
| Json (p : Telemetry).

Record Request : Type := {
  rq_method : Method;
  rq_url : jsstring;
  rq_headers : list (jsstring * option jsstring);
  rq_body : Body;
}.

(** What the code reads of a [fetch] response; reading the body may fail. *)
Record Response : Type := {
  rs_status : Z;
  rs_arrayBuffer : Exn + list N;
  rs_text : Exn + jsstring;
  rs_upserted : Exn + option jsstring;
}.

(** [response.ok] *)
Definition rs_ok (r : Response) : bool :=
  (200 <=? rs_status r) && (rs_status r <=? 299).

Inductive Stdio : Type := Piped | Inherited.

(** The object [spawnSync] returns: [status], [stdout] and [stderr] may be
    null. *)
Record SpawnResult : Type := {
  sp_status : option Z;
  sp_stdout : option jsstring;
  sp_stderr : option jsstring;
}.

(** A null-able string in a template literal. *)
Definition tmpl_null (o : option jsstring) : jsstring :=
  match o with Some s => s | None => lit "null" end.

(** The record handed to [writeOutput]. *)
Inductive Output : Type :=
| OutSuccess (prompt : option jsstring) (branch : jsstring)
    (cost : float) (aiTime : Z)
| OutFailure (error : jsstring).

(** Everything observable a run does, in order. *)
Inductive Event : Type :=
| EvLog (lv : Level) (msg : list Piece)
| EvValidateConfig
| EvGitSetup
| EvSetupLocalRepository
| EvEnsureBranch
| EvPostComment (body : jsstring)
| EvWriteOutput (ok : bool) (o : Output)
| EvMkdir (path : jsstring)
| EvRm (path : jsstring)
| EvWriteFile (path : jsstring) (content : list N)
| EvReadFile (path : jsstring)
| EvExec (cmd : jsstring)
| EvFetch (r : Request)
| EvSpawn (file : jsstring) (args : list jsstring) (input : jsstring)
    (stdio : Stdio)
| EvStdout (s : jsstring)
| EvStderr (s : jsstring)
| EvExit (code : Z).

(** Node's runtime and the operating system. *)
Record Host : Type := {
  h_homedir : jsstring;
  h_HOME : option jsstring;
  h_USERPROFILE : option jsstring;
  h_now : nat -> Z;
  h_mkdir : jsstring -> FS -> option Exn * FS;
  h_rm : jsstring -> FS -> option Exn * FS;
  h_writeFile : jsstring -> list N -> FS -> option Exn * FS;
  h_readFile : jsstring -> FS -> Exn + list N;
  h_exec : jsstring -> FS -> (Exn + jsstring) * FS;
  h_fetch : Request -> Exn + Response;
  h_spawn : jsstring -> list jsstring -> jsstring -> Stdio -> FS ->
            SpawnResult * FS;
  h_encodeURIComponent : jsstring -> Exn + jsstring;
  h_parseFloat : jsstring -> float;
}.

(** The modules [runner.js] imports and this development does not contain:
    [context.js], [config.js], [git.js], [gitlab.js], [output.js]. *)
Record Collab : Type := {
  c_buildContext : Exn + Context;
  c_validateConfig : Context -> option Exn;
  c_gitSetup : Context -> FS -> option Exn * FS;
  c_isInsideGitRepo : FS -> Exn + bool;
  c_setupLocalRepository : Context -> FS -> option Exn * FS;
  c_ensureBranch : Context -> FS -> option Exn * FS;
  c_validateProviderKeys : Exn + bool;
  c_postComment : Context -> jsstring -> option Exn;
  c_writeOutput : bool -> Output -> option Exn;
}.

Record State : Type := {
  fs : FS;
  trace : list Event;
  ticks : nat;
}.

(** How a computation ends: a value, a thrown error, or [process.exit]. *)
Inductive Outcome (A : Type) : Type :=
| Ret (a : A)
| Throw (e : Exn)
| Exit (code : Z).
Arguments Ret {A} a.
Arguments Throw {A} e.
Arguments Exit {A} code.

Definition M (A : Type) : Type := State -> Outcome A * State.

#[export] Instance M_ret : MRet M := fun A a s => (Ret a, s).

#[export] Instance M_bind : MBind M := fun A B f m s =>
  match m s with
  | (Ret a, s') => f a s'
  | (Throw e, s') => (Throw e, s')
  | (Exit c, s') => (Exit c, s')
  end.

Definition throw {A} (e : Exn) : M A := fun s => (Throw e, s).

(** [try { m } catch (error) { h error.message }]: [process.exit] is not
    caught. *)
Definition try_catch {A} (m : M A) (h : Exn -> M A) : M A := fun s =>
  match m s with
  | (Throw e, s') => h e s'
  | r => r
  end.

Definition emit (e : Event) : M unit := fun s =>
  (Ret tt, {| fs := fs s; trace := trace s ++ [e]; ticks := ticks s |}).

Definition get_fs : M FS := fun s => (Ret (fs s), s).

Definition set_fs (f : FS) : M unit := fun s =>
  (Ret tt, {| fs := f; trace := trace s; ticks := ticks s |}).

(** The state [s] after the events [evs] and nothing else. *)
Definition record_events (s : State) (evs : list Event) : State :=
  {| fs := fs s; trace := trace s ++ evs; ticks := ticks s |}.

(** An outside call that may throw and may change the file system. *)
Definition effect (f : FS -> option Exn * FS) : M unit := fun s =>
  let '(r, f') := f (fs s) in
  let s' := {| fs := f'; trace := trace s; ticks := ticks s |} in
  match r with
  | Some e => (Throw e, s')
  | None => (Ret tt, s')
  end.

(** [if (b) { m }] *)
Definition when (b : bool) (m : M unit) : M unit :=
  if b then m else mret tt.

Definition of_sum {A} (r : Exn + A) : M A :=
  match r with inl e => throw e | inr a => mret a end.

Definition of_faults (r : option Exn) : M unit :=
  match r with Some e => throw e | None => mret tt end.

Definition log (lv : Level) (msg : list Piece) : M unit := emit (EvLog lv msg).

Definition logs (lv : Level) (s : string) : M unit := log lv [PStr (lit s)].

(** [process.exit(code)] *)
Definition exit {A} (code : Z) : M A := fun s =>
  (Exit code, {| fs := fs s; trace := trace s ++ [EvExit code]; ticks := ticks s |}).

(** [existsSync(path)]: never throws. *)
Definition existsSync (path : jsstring) : M bool := fun s =>
  (Ret (bool_decide (is_Some (fs s !! path))), s).

Section Primitives.
Variable h : Host.

Definition mkdirSync (path : jsstring) : M unit :=
  emit (EvMkdir path) ;; effect (h_mkdir h path).

Definition rmSync (path : jsstring) : M unit :=
  emit (EvRm path) ;; effect (h_rm h path).

Definition writeFileSync (path : jsstring) (b : list N) : M unit :=
  emit (EvWriteFile path b) ;; effect (h_writeFile h path b).

Definition readFileSync (path : jsstring) : M (list N) :=
  emit (EvReadFile path) ;; f ← get_fs; of_sum (h_readFile h path f).

(** [execSync(cmd, {encoding: "utf-8"})]: throws when the command exits
    non-zero, returns its standard output otherwise. *)
Definition execSync (cmd : jsstring) : M jsstring :=
  emit (EvExec cmd) ;;
  f ← get_fs;
  let '(r, f') := h_exec h cmd f in
  set_fs f' ;; of_sum r.

(** [await fetch(url, {method, headers, body})] *)
Definition fetch (r : Request) : M Response :=
  emit (EvFetch r) ;; of_sum (h_fetch h r).

(** [spawnSync(file, args, {encoding, input, stdio})] *)
Definition spawnSync (file : jsstring) (args : list jsstring)
  (input : jsstring) (stdio : Stdio) : M SpawnResult :=
  emit (EvSpawn file args input stdio) ;;
  f ← get_fs;
  let '(r, f') := h_spawn h file args input stdio f in
  set_fs f' ;; mret r.

(** [Date.now()] *)
Definition now : M Z := fun s =>
  (Ret (h_now h (ticks s)),
   {| fs := fs s; trace := trace s; ticks := S (ticks s) |}).

End Primitives.

End World.
Import World.

(* ===================================================================== *)
(** ** session.js *)
(* ===================================================================== *)

Module Session.

(** What [downloadSession] can hand back: a string, [null] or a boolean. *)
Inductive JsVal : Type :=
| VStr (s : jsstring)
| VNull
| VBool (b : bool).

Definition of_nullable (o : option jsstring) : JsVal :=
  match o with Some s => VStr s | None => VNull end.

(** [join(a, b)] of [node:path], for a directory [a] written without a
    trailing separator. *)
Definition path_join (a b : jsstring) : jsstring := a ++ lit "/" ++ b.

Definition SESSION_ZIP_PATH : jsstring := lit "/tmp/opencode-session.zip".

(** [getSessionId(context)] *)
Definition getSessionId (context : Context) : jsstring :=
  projectId context ++ lit "_" ++ branch context.

Section WithHost.
Variable h : Host.

Definition OPENCODE_DIR : jsstring :=
  path_join (h_homedir h) (lit ".local/share/opencode").

Definition zipCmd : jsstring :=
  lit "cd " ++ dquote ++ OPENCODE_DIR ++ dquote ++ lit " && zip -r "
  ++ dquote ++ SESSION_ZIP_PATH ++ dquote ++ lit " . -q".

Definition unzipCmd (zipPath : jsstring) : jsstring :=
  lit "unzip -q -o " ++ dquote ++ zipPath ++ dquote ++ lit " -d "
  ++ dquote ++ OPENCODE_DIR ++ dquote.

Definition messagesDir : jsstring := path_join OPENCODE_DIR (lit "storage/message").

Definition latestCmd : jsstring :=
  lit "ls -td " ++ dquote ++ messagesDir ++ dquote
  ++ lit "/ses_* 2>/dev/null | head -n 1 | xargs basename 2>/dev/null || echo "
  ++ dquote ++ dquote.

(** [zipSession()] *)
Definition zipSession : M (option jsstring) :=
  try_catch
    (present ← existsSync OPENCODE_DIR;
     if negb present then
       logs LWarn "Opencode directory does not exist, nothing to zip" ;;
       mret None
     else
       logs LInfo "Zipping opencode session..." ;;
       stale ← existsSync SESSION_ZIP_PATH;
       when stale (rmSync h SESSION_ZIP_PATH) ;;
       execSync h zipCmd ;;
       log LSuccess [PStr (lit "Session zipped to " ++ SESSION_ZIP_PATH)] ;;
       mret (Some SESSION_ZIP_PATH))
    (fun msg =>
       log LError [PStr (lit "Failed to zip session: " ++ msg)] ;;
       mret None).

(** [getLatestSessionId()] *)
Definition getLatestSessionId : M (option jsstring) :=
  try_catch
    (present ← existsSync messagesDir;
     if negb present then mret None
     else
       out ← execSync h latestCmd;
       let result := trim out in
       mret (if truthy result then Some result else None))
    (fun msg =>
       log LWarn [PStr (lit "Could not find latest session ID: " ++ msg)] ;;
       mret None).

(** [unzipSession(zipPath)] *)
Definition unzipSession (zipPath : jsstring) : M (option jsstring) :=
  try_catch
    (present ← existsSync zipPath;
     if negb present then
       log LWarn [PStr (lit "Session zip not found at " ++ zipPath)] ;;
       mret None
     else
       logs LInfo "Restoring opencode session..." ;;
       have_dir ← existsSync OPENCODE_DIR;
       when (negb have_dir) (mkdirSync h OPENCODE_DIR) ;;
       execSync h (unzipCmd zipPath) ;;
       logs LSuccess "Session restored successfully" ;;
       sessionId ← getLatestSessionId;
       match sessionId with
       | Some sid =>
           log LInfo [PStr (lit "Found previous session: " ++ sid)] ;;
           mret sessionId
       | None => mret sessionId
       end)
    (fun msg =>
       log LError [PStr (lit "Failed to unzip session: " ++ msg)] ;;
       mret None).

Definition sessionUrl (context : Context) (encoded : jsstring) : jsstring :=
  tmpl (dataStorageApiUrl context) ++ lit "/session?sessionId=" ++ encoded.

(** The request [downloadSession] sends. *)
Definition downloadRequest (context : Context) (downloadUrl : jsstring)
  : Request :=
  {| rq_method := GET; rq_url := downloadUrl;
     rq_headers := [(lit "x-api-key", dataStorageApiKey context)];
     rq_body := NoBody |}.

(** [downloadSession(context)] *)
Definition downloadSession (context : Context) : M JsVal :=
  try_catch
    (let sessionId := getSessionId context in
     enc ← of_sum (h_encodeURIComponent h sessionId);
     let downloadUrl := sessionUrl context enc in
     log LInfo [PStr (lit "Downloading session from API: " ++ sessionId)] ;;
     response ← fetch h (downloadRequest context downloadUrl);
     if rs_status response =? 404 then
       logs LInfo "No previous session found, starting fresh" ;;
       mret (VBool false)
     else if negb (rs_ok response) then
       log LWarn [PStr (lit "Failed to download session: "); PInt (rs_status response)] ;;
       mret (VBool false)
     else
       buffer ← of_sum (rs_arrayBuffer response);
       writeFileSync h SESSION_ZIP_PATH buffer ;;
       logs LSuccess "Session downloaded from API" ;;
       restored ← unzipSession SESSION_ZIP_PATH;
       mret (of_nullable restored))
    (fun msg =>
       log LWarn [PStr (lit "Could not download session: " ++ msg)] ;;
       mret (VBool false)).

(** [uploadSession(context)] *)
Definition uploadSession (context : Context) : M bool :=
  try_catch
    (let sessionId := getSessionId context in
     zipPath ← zipSession;
     match zipPath with
     | None =>
         logs LWarn "No session to upload" ;;
         mret false
     | Some zp =>
         log LInfo [PStr (lit "Uploading session to API: " ++ sessionId)] ;;
         fileBuffer ← readFileSync h zp;
         enc ← of_sum (h_encodeURIComponent h sessionId);
         let uploadUrl := sessionUrl context enc in
         response ← fetch h {| rq_method := PUT; rq_url := uploadUrl;
                               rq_headers := [(lit "x-api-key", dataStorageApiKey context);
                                              (lit "Content-Type", Some (lit "application/zip"))];
                               rq_body := Bytes fileBuffer |};
         if negb (rs_ok response) then
           errorText ← of_sum (rs_text response);
           log LWarn [PStr (lit "Failed to upload session: "); PInt (rs_status response);
                      PStr (lit " - " ++ errorText)] ;;
           mret false
         else
           logs LSuccess "Session uploaded to API" ;;
           mret true
     end)
    (fun msg =>
       log LError [PStr (lit "Failed to upload session: " ++ msg)] ;;
       mret false).


End WithHost.

End Session.

(* ===================================================================== *)
(** ** opencode.js *)
(* ===================================================================== *)

Module Opencode.

Record InvokeResult : Type := {
  fullOutput : jsstring;
  finalResponse : jsstring;
  stderr : jsstring;
}.

(** [!x] on an array element that may be missing. *)
Definition falsy (o : option jsstring) : bool :=
  match o with Some s => negb (truthy s) | None => true end.

(** The guard of [runOpencode]: [const [providerID, modelID] =
    model.split('/')] followed by [!providerID || !modelID]. *)
Definition invalidModel (model : jsstring) : bool :=
  let parts := split_on slash model in
  let providerID := parts !! 0%nat in
  let modelID := parts !! 1%nat in
  falsy providerID || falsy modelID.

Definition invalidModelError (model : jsstring) : Exn :=
  lit "Invalid OPENCODE_MODEL format: " ++ model
  ++ lit ". Expected format: provider/model".

Definition cliArgs (context : Context) : list jsstring :=
  [lit "run"; lit "--print-logs"; lit "--model"; opencodeModel context;
   lit "--log-level"; lit "ERROR"].

Definition cliInput (context : Context) (prompt : option jsstring) : jsstring :=
  tmpl (agentPrompt context) ++ [newline] ++ tmpl prompt.

Definition cliFailedError (r : SpawnResult) : Exn :=
  lit "opencode CLI failed: " ++ tmpl_null (sp_stderr r).

(** The test of the extraction loop, on the trimmed line. *)
Definition keepLine (line : jsstring) : bool :=
  truthy line && negb (startsWith (lit "[") line)
  && negb (includes (lit "Tool:") line) && negb (includes (lit ">>>") line).

(** The loop [for (let i = lines.length - 1; i >= 0 &&
    lastNonEmptyLines.length < 50; i--)]; [n] is [i + 1]. *)
Fixpoint scanLines (lines : list jsstring) (n : nat)
  (lastNonEmptyLines : list jsstring) : list jsstring :=
  match n with
  | O => lastNonEmptyLines
  | S i =>
      if (length lastNonEmptyLines <? 50)%nat then
        let line := trim (nth i lines []) in
        scanLines lines i
          (if keepLine line then nth i lines [] :: lastNonEmptyLines
           else lastNonEmptyLines)
      else lastNonEmptyLines
  end.

(** A line the loop keeps: the test applied to the trimmed line. *)
Definition qualifies (l : jsstring) : bool := keepLine (trim l).

(** The last [k] elements of a list, in order (all of them when there are
    fewer). *)
Definition lastn {A} (k : nat) (l : list A) : list A :=
  drop (length l - k) l.

(** A line of text proper: it holds no line end. *)
Definition single_line (l : jsstring) : bool :=
  negb (existsb (N.eqb newline) l).

(** The value of [finalResponse] for a given [fullOutput]. *)
Definition extractFinalResponse (fullOutput : jsstring) : jsstring :=
  let lines := split_on newline fullOutput in
  let lastNonEmptyLines := scanLines lines (length lines) [] in
  if (0 <? length lastNonEmptyLines)%nat
  then trim (join [newline] lastNonEmptyLines)
  else fullOutput.

(** The first line [runOpencode] logs. *)
Definition startLog : Event :=
  EvLog LStart [PStr (lit "Running opencode via cli...")].

(** What [runOpencode] logs before it starts the child. *)
Definition launchLogs (context : Context) : list Event :=
  let parts := split_on slash (opencodeModel context) in
  [startLog;
   EvLog LInfo [PStr (lit "Using model: " ++ tmpl (parts !! 1%nat)
                      ++ lit " from provider: " ++ tmpl (parts !! 0%nat))];
   EvLog LInfo [PStr (lit "Sending prompt to model ... this may take a while")];
   EvLog LInfo [PStr (lit "Running: opencode " ++ join (lit " ") (cliArgs context))]].

(** What the capturing revision copies to the parent's own streams: the
    child's standard output and standard error, each when non-empty. *)
Definition mirrored (result : SpawnResult) : list Event :=
  (if truthy (or_else (sp_stdout result) [])
   then [EvStdout (or_else (sp_stdout result) [])] else [])
  ++ (if truthy (or_else (sp_stderr result) [])
      then [EvStderr (or_else (sp_stderr result) [])] else []).

(** A log line. *)
Definition is_log (e : Event) : bool :=
  match e with EvLog _ _ => true | _ => false end.

Section WithHost.
Variable h : Host.

(** The part both revisions share, up to the child's result. *)
Definition launch (context : Context) (prompt : option jsstring)
  (stdio : Stdio) : M SpawnResult :=
  logs LStart "Running opencode via cli..." ;;
  let parts := split_on slash (opencodeModel context) in
  (if invalidModel (opencodeModel context)
   then throw (invalidModelError (opencodeModel context))
   else mret tt) ;;
  log LInfo [PStr (lit "Using model: " ++ tmpl (parts !! 1%nat)
                   ++ lit " from provider: " ++ tmpl (parts !! 0%nat))] ;;
  logs LInfo "Sending prompt to model ... this may take a while" ;;
  log LInfo [PStr (lit "Running: opencode " ++ join (lit " ") (cliArgs context))] ;;
  spawnSync h (lit "opencode") (cliArgs context) (cliInput context prompt) stdio.

(** [if (result.status !== 0) { ...; throw ... }] *)
Definition checkStatus (result : SpawnResult) : M unit :=
  if bool_decide (sp_status result = Some 0) then mret tt
  else
    log LError [PStr (lit "opencode CLI exited with error: ");
                piece_of (sp_stderr result)] ;;
    throw (cliFailedError result).

(** [runOpencode(context, prompt)], the revision that captures the child's
    streams and extracts the final response. *)
Definition runOpencode (context : Context) (prompt : option jsstring)
  : M InvokeResult :=
  result ← launch context prompt Piped;
  when (truthy (or_else (sp_stdout result) []))
       (emit (EvStdout (or_else (sp_stdout result) []))) ;;
  when (truthy (or_else (sp_stderr result) []))
       (emit (EvStderr (or_else (sp_stderr result) []))) ;;
  checkStatus result ;;
  logs LSuccess "opencode CLI completed" ;;
  let fullOutput := or_else (sp_stdout result) [] in
  mret {| fullOutput := fullOutput;
          finalResponse := extractFinalResponse fullOutput;
          stderr := or_else (sp_stderr result) [] |}.

(** [runOpencode(context, prompt)], the revision that hands the child the
    parent's output streams. *)
Definition runOpencode_inherit (context : Context) (prompt : option jsstring)
  : M unit :=
  result ← launch context prompt Inherited;
  checkStatus result ;;
  logs LSuccess "opencode CLI completed".

End WithHost.

End Opencode.

(* ===================================================================== *)
(** ** runner.js *)
(* ===================================================================== *)

Module Runner.

(** Which revision of [opencode.js] the import resolves to. *)
Inductive Revision : Type := Capturing | Inheriting.

(** [x || 0] on a number: zero, minus zero and NaN are falsy. *)
Definition or_zero (x : float) : float :=
  if (PrimFloat.is_nan x || PrimFloat.is_zero x)%bool then 0%float else x.

(** [Math.round(ms / 1000)] for a whole number of milliseconds: halves go
    up. *)
Definition roundSeconds (ms : Z) : Z := (ms + 500) / 1000.

Definition supabaseUrl : jsstring :=
  lit "https://rfzqphgaqqktfnglfmya.supabase.co/functions/v1/issues".

(** [context.prompt?.substring(0, 100) || "AI Task"] *)
Definition taskTitle (context : Context) : jsstring :=
  or_else (substring0 100 <$> prompt context) (lit "AI Task").

Definition telemetry (context : Context) (costUsd : float) (aiTimeSeconds : Z)
  : Telemetry :=
  {| gitlab_id := resourceId context;
     title := taskTitle context;
     status := lit "ai_solved";
     ai_attempted := true;
     ai_solved := false;
     tokens_used := 0;
     cost_usd := costUsd;
     ai_time_seconds := aiTimeSeconds;
     dev_time_seconds := 0 |}.

Definition telemetryRequest (context : Context) (costUsd : float)
  (aiTimeSeconds : Z) : Request :=
  {| rq_method := POST; rq_url := supabaseUrl;
     rq_headers := [(lit "Content-Type", Some (lit "application/json"))];
     rq_body := Json (telemetry context costUsd aiTimeSeconds) |}.

(** The comment [handleError] posts. *)
Definition errorComment (msg : jsstring) : jsstring :=
  [10060%N] ++ lit " AI encountered an error:" ++ [newline; newline]
  ++ lit "```" ++ [newline] ++ msg ++ [newline] ++ lit "```"
  ++ [newline; newline] ++ lit "Please check the pipeline logs for details.".

Section WithWorld.
Variable h : Host.
Variable c : Collab.

(** [process.env.HOME || process.env.USERPROFILE] *)
Definition homeDir : option jsstring :=
  match h_HOME h with
  | Some s => if truthy s then Some s else h_USERPROFILE h
  | None => h_USERPROFILE h
  end.

Definition storageDir : jsstring :=
  tmpl homeDir ++ lit "/.local/share/opencode/storage/message/".

Definition sessionIdCmd : jsstring :=
  lit "ls -td " ++ storageDir ++ lit "ses_* | head -n 1 | xargs basename".

Definition costCmd (sessionId : jsstring) : jsstring :=
  lit "jq -s 'map(.cost) | add' " ++ storageDir ++ sessionId ++ lit "/*.json".

(** The value the inner [try] leaves in [totalCost], read off the answers
    of the two commands on file system [f]. *)
Definition totalCostOn (f : FS) : float :=
  match h_exec h sessionIdCmd f with
  | (inl _, _) => 0%float
  | (inr out, f1) =>
      match h_exec h (costCmd (trim out)) f1 with
      | (inl _, _) => 0%float
      | (inr out', _) => or_zero (h_parseFloat h (trim out'))
      end
  end.

(** The commands the inner [try] runs on file system [f]. *)
Definition costCommands (f : FS) : list Event :=
  EvExec sessionIdCmd
  :: match h_exec h sessionIdCmd f with
     | (inl _, _) => []
     | (inr out, _) => [EvExec (costCmd (trim out))]
     end.

(** The inner [try] of [run]: the value [totalCost] holds after it. *)
Definition computeCost (aiTimeSeconds : Z) : M float :=
  try_catch
    (out ← execSync h sessionIdCmd;
     let sessionId := trim out in
     out' ← execSync h (costCmd sessionId);
     let totalCost := or_zero (h_parseFloat h (trim out')) in
     log LInfo [PStr (lit "Total cost for session: $"); PFixed6 totalCost] ;;
     log LInfo [PStr (lit "AI execution time: "); PInt aiTimeSeconds; PStr (lit "s")] ;;
     mret totalCost)
    (fun msg =>
       log LWarn [PStr (lit "Could not calculate session cost:"); PStr msg] ;;
       mret 0%float).

(** [reportToSupabase(context, costUsd, aiTimeSeconds)] *)
Definition reportToSupabase (context : Context) (costUsd : float)
  (aiTimeSeconds : Z) : M unit :=
  try_catch
    (response ← fetch h (telemetryRequest context costUsd aiTimeSeconds);
     if negb (rs_ok response) then
       errorText ← of_sum (rs_text response);
       log LWarn [PStr (lit "Failed to report to Supabase: ");
                  PInt (rs_status response); PStr (lit " - " ++ errorText)]
     else
       upserted ← of_sum (rs_upserted response);
       log LSuccess [PStr (lit "Reported to Supabase: "
                           ++ or_else upserted (lit "success"))])
    (fun msg =>
       log LWarn [PStr (lit "Could not report to Supabase:"); PStr msg]).

Definition postComment (context : Context) (body : jsstring) : M unit :=
  emit (EvPostComment body) ;; of_faults (c_postComment c context body).

Definition writeOutput (ok : bool) (o : Output) : M unit :=
  emit (EvWriteOutput ok o) ;; of_faults (c_writeOutput c ok o).

(** [handleError(context, error)] *)
Definition handleError (context : Context) (msg : Exn) : M unit :=
  log LError [PStr msg] ;;
  postComment context (errorComment msg) ;;
  writeOutput false (OutFailure msg) ;;
  exit 1.

Definition invoke (rev : Revision) (context : Context)
  (prompt : option jsstring) : M unit :=
  match rev with
  | Capturing => Opencode.runOpencode h context prompt ;; mret tt
  | Inheriting => Opencode.runOpencode_inherit h context prompt
  end.

(** The body of the outer [try] of [run]. *)
Definition attempt (rev : Revision) (context : Context) (startTime : Z)
  : M unit :=
  emit EvValidateConfig ;; of_faults (c_validateConfig c context) ;;
  emit EvGitSetup ;; effect (c_gitSetup c context) ;;
  f ← get_fs;
  inside ← of_sum (c_isInsideGitRepo c f);
  (if negb inside
   then emit EvSetupLocalRepository ;; effect (c_setupLocalRepository c context)
   else emit EvEnsureBranch ;; effect (c_ensureBranch c context)) ;;
  log LInfo [PStr (lit "Prompt: " ++ tmpl (prompt context))] ;;
  hasAnyProviderKey ← of_sum (c_validateProviderKeys c);
  when (negb hasAnyProviderKey)
       (logs LWarn "No provider API key detected in env. opencode may fail to start unless credentials are pre-configured via 'opencode auth login'.") ;;
  log LInfo [PStr (lit "Working directory: "); PCwd] ;;
  invoke rev context (prompt context) ;;
  log LInfo [PStr (lit "Working directory after opencode: "); PCwd] ;;
  t ← now h;
  let aiTimeSeconds := roundSeconds (t - startTime) in
  totalCost ← computeCost aiTimeSeconds;
  reportToSupabase context totalCost aiTimeSeconds ;;
  writeOutput true (OutSuccess (prompt context) (branch context) totalCost aiTimeSeconds) ;;
  exit 0.

(** What [run] logs before the [try]. *)
Definition bannerLogs (context : Context) : list Event :=
  [EvLog LInfo [PStr (lit "AI GitLab Runner Started")];
   EvLog LInfo [PStr (lit "Project: " ++ or_else (projectPath context) (lit "(unknown)"))];
   EvLog LInfo [PStr (lit "Triggered by: @" ++ or_else (author context) (lit "unknown"))];
   EvLog LInfo [PStr (lit "Branch: " ++ branch context)]].

Definition noKeyWarning : Event :=
  EvLog LWarn [PStr (lit "No provider API key detected in env. opencode may fail to start unless credentials are pre-configured via 'opencode auth login'.")].

(** What the [try] does before it invokes the agent, when nothing throws:
    [inside] is the answer of [isInsideGitRepo], [keys] that of
    [validateProviderKeys]. *)
Definition setupEvents (context : Context) (inside keys : bool) : list Event :=
  [EvValidateConfig; EvGitSetup;
   (if inside then EvEnsureBranch else EvSetupLocalRepository);
   EvLog LInfo [PStr (lit "Prompt: " ++ tmpl (prompt context))]]
  ++ (if keys then [] else [noKeyWarning])
  ++ [EvLog LInfo [PStr (lit "Working directory: "); PCwd]].

(** What [run] logs once the agent has returned. *)
Definition afterLog : Event :=
  EvLog LInfo [PStr (lit "Working directory after opencode: "); PCwd].

(** What [handleError] does, when nothing throws. *)
Definition failureEvents (msg : Exn) : list Event :=
  [EvLog LError [PStr msg]; EvPostComment (errorComment msg);
   EvWriteOutput false (OutFailure msg); EvExit 1].

(** The standard streams the revision gives the child. *)
Definition stdio_of (rev : Revision) : Stdio :=
  match rev with Capturing => Piped | Inheriting => Inherited end.

(** [run()] *)
Definition run (rev : Revision) : M unit :=
  logs LInfo "AI GitLab Runner Started" ;;
  context ← of_sum (c_buildContext c);
  log LInfo [PStr (lit "Project: " ++ or_else (projectPath context) (lit "(unknown)"))] ;;
  log LInfo [PStr (lit "Triggered by: @" ++ or_else (author context) (lit "unknown"))] ;;
  log LInfo [PStr (lit "Branch: " ++ branch context)] ;;
  startTime ← now h;
  try_catch (attempt rev context startTime) (handleError context).

(** The collaborators up to the invocation succeed from file system [f],
    and [writeOutput] does; [f'] is the file system they leave. *)
Definition setup_succeeds (context : Context) (f : FS)
  (inside keys : bool) (f' : FS) : Prop :=
  c_validateConfig c context = None
  /\ (exists f1,
        c_gitSetup c context f = (None, f1)
        /\ c_isInsideGitRepo c f1 = inr inside
        /\ (if inside then c_ensureBranch c context f1
            else c_setupLocalRepository c context f1) = (None, f'))
  /\ c_validateProviderKeys c = inr keys
  /\ (forall o, c_writeOutput c true o = None).

(** The child started on file system [f] exits with status 0. *)
Definition child_succeeds (rev : Revision) (context : Context) (f : FS) : Prop :=
  Opencode.invalidModel (opencodeModel context) = false
  /\ sp_status (fst (h_spawn h (lit "opencode") (Opencode.cliArgs context)
                        (Opencode.cliInput context (prompt context))
                        (stdio_of rev) f)) = Some 0.

(** What a successful run does to the outside, in order: [f4] is the file
    system the child leaves, [cost] and [t] the metrics. *)
Definition successIo (rev : Revision) (context : Context) (inside : bool)
  (f4 : FS) (cost : float) (t : Z) : list Event :=
  [EvValidateConfig; EvGitSetup;
   (if inside then EvEnsureBranch else EvSetupLocalRepository);
   EvSpawn (lit "opencode") (Opencode.cliArgs context)
     (Opencode.cliInput context (prompt context)) (stdio_of rev)]
  ++ costCommands f4
  ++ [EvFetch (telemetryRequest context cost t);
      EvWriteOutput true (OutSuccess (prompt context) (branch context) cost t);
      EvExit 0].

End WithWorld.

(** The events that are not log lines or mirrored output: what a run does
    to the outside. *)
Definition io (e : Event) : bool :=
  match e with
  | EvLog _ _ | EvStdout _ | EvStderr _ => false
  | _ => true
  end.

(** A request to the session store, as [downloadSession] (GET) and
    [uploadSession] (PUT) send them. *)
Definition session_request (e : Event) : bool :=
  match e with
  | EvFetch r => match rq_method r with GET | PUT => true | POST => false end
  | _ => false
  end.

End Runner.

(* ===================================================================== *)
(** ** The jq program of [costCmd] *)
(* ===================================================================== *)

(** [run] computes the cost with the jq program [map(.cost) | add], run with
    [-s] over the record files of one conversation unit.  This module gives
    that program its meaning on JSON values, after the jq manual. *)
Module Jq.

Inductive Json : Type :=
| JNull
| JBool (b : bool)
| JNum (x : float)
| JStr (s : jsstring)
| JArr (items : list Json)
| JObj (fields : list (jsstring * Json)).

Definition key_eqb (a b : jsstring) : bool := bool_decide (a = b).

(** The value an object holds under a key: the last one written for it,
    [null] when the key is missing. *)
Definition field (k : jsstring) (fields : list (jsstring * Json)) : Json :=
  fold_left (fun acc kv => if key_eqb k (fst kv) then snd kv else acc)
            fields JNull.

(** [.cost] *)
Definition dot_cost (v : Json) : Exn + Json :=
  match v with
  | JObj fields => inr (field (lit "cost") fields)
  | JNull => inr JNull
  | _ => inl (lit "Cannot index value with cost")
  end.

(** [a + b]: [null] is neutral, numbers add, strings and arrays
    concatenate, objects merge; anything else is an error. *)
Definition plus (a b : Json) : Exn + Json :=
  match a, b with
  | JNull, v => inr v
  | v, JNull => inr v
  | JNum x, JNum y => inr (JNum (x + y)%float)
  | JStr s, JStr t => inr (JStr (s ++ t))
  | JArr l, JArr m => inr (JArr (l ++ m))
  | JObj f, JObj g =>
      inr (JObj (List.filter (fun kv => negb (existsb (fun kv' => key_eqb (fst kv) (fst kv')) g)) f ++ g))
  | _, _ => inl (lit "values cannot be added")
  end.

(** [map(.cost)] on the slurped array. *)
Fixpoint map_cost (vs : list Json) : Exn + list Json :=
  match vs with
  | [] => inr []
  | v :: r =>
      match dot_cost v with
      | inl e => inl e
      | inr x => match map_cost r with
                 | inl e => inl e
                 | inr xs => inr (x :: xs)
                 end
      end
  end.

(** [add], that is [reduce .[] as $x (null; . + $x)], from accumulator
    [acc]. *)
Fixpoint add_from (acc : Json) (vs : list Json) : Exn + Json :=
  match vs with
  | [] => inr acc
  | v :: r =>
      match plus acc v with
      | inl e => inl e
      | inr acc' => add_from acc' r
      end
  end.

(** [map(.cost) | add] *)
Definition program (vs : list Json) : Exn + Json :=
  match map_cost vs with
  | inl e => inl e
  | inr costs => add_from JNull costs
  end.

(** The files the shell pattern expands to: each holds one JSON value, or
    text that is not JSON ([None]). *)
Fixpoint slurp (files : list (option Json)) : Exn + list Json :=
  match files with
  | [] => inr []
  | None :: _ => inl (lit "Cannot parse input")
  | Some v :: r =>
      match slurp r with
      | inl e => inl e
      | inr vs => inr (v :: vs)
      end
  end.

(** What [execSync(costCmd)] yields on those files: jq exits non-zero, and
    [execSync] throws, when the pattern matches no file, when a file is not
    JSON and when the program fails; otherwise the output is the rendering
    [print] of the result and a line end. *)
Definition exec (print : Json -> jsstring) (files : list (option Json))
  : Exn + jsstring :=
  match files with
  | [] => inl (lit "Could not open file")
  | _ =>
      match slurp files with
      | inl e => inl e
      | inr vs =>
          match program vs with
          | inl e => inl e
          | inr v => inr (print v ++ [newline])
          end
      end
  end.

(** A record whose cost field holds [v]. *)
Definition record (v : Json) : option Json := Some (JObj [(lit "cost", v)]).

(** A cost that is a number, or is null or missing ([None]). *)
Definition cost_value (o : option float) : Json :=
  match o with Some x => JNum x | None => JNull end.

(** A record file is readable and its cost is the number, or the null or
    missing value, [o]. *)
Definition has_cost (file : option Json) (o : option float) : Prop :=
  exists v, file = Some v /\ dot_cost v = inr (cost_value o).

(** The numbers [xs] added from left to right; [null] when there is none. *)
Definition sum_json (xs : list float) : Json :=
  match xs with
  | [] => JNull
  | x :: r => JNum (fold_left PrimFloat.add r x)
  end.

End Jq.

(* ===================================================================== *)
(** ** The design document's reading of the cost sum *)
(* ===================================================================== *)

Module Design.

(** What a record adds to the total according to the design document: its
    numeric cost, and 0 when the cost is missing, null or not a number, or
    the record cannot be read. *)
Definition contribution (r : option Jq.Json) : float :=
  match r with
  | Some v =>
      match Jq.dot_cost v with
      | inr (Jq.JNum x) => x
      | _ => 0%float
      end
  | None => 0%float
  end.

(** The sum of the contributions, in file order. *)
Definition costSum (records : list (option Jq.Json)) : float :=
  fold_left (fun acc r => (acc + contribution r)%float) records 0%float.

End Design.

(* ===================================================================== *)
(** ** Concrete worlds *)
(* ===================================================================== *)

Module Sample.

Definition context (pid br model : string) : Context :=
  {| projectPath := Some (lit "group/project");
     author := Some (lit "dev");
     branch := lit br;
     prompt := Some (lit "fix the bug");
     agentPrompt := Some (lit "You are an agent.");
     opencodeModel := lit model;
     resourceId := Some (lit "42");
     projectId := lit pid;
     dataStorageApiUrl := Some (lit "https://store.example");
     dataStorageApiKey := Some (lit "key") |}.

Definition ok_response (body : list N) : Response :=
  {| rs_status := 200; rs_arrayBuffer := inr body; rs_text := inr [];
     rs_upserted := inr None |}.

Definition not_found : Response :=
  {| rs_status := 404; rs_arrayBuffer := inr []; rs_text := inr (lit "not found");
     rs_upserted := inr None |}.

(** A host on which every call succeeds: the child exits with [status] and
    the given streams, the shell answers [shell], the network answers
    [net]. *)
Definition host (status : option Z) (out err : option jsstring)
  (shell : jsstring -> FS -> (Exn + jsstring) * FS)
  (net : Request -> Exn + Response) (parse : jsstring -> float) : Host :=
  {| h_homedir := lit "/root";
     h_HOME := Some (lit "/root");
     h_USERPROFILE := None;
     h_now := fun n => 1000 * Z.of_nat n;
     h_mkdir := fun p f => (None, <[p := Dir]> f);
     h_rm := fun p f => (None, delete p f);
     h_writeFile := fun p b f => (None, <[p := File b]> f);
     h_readFile := fun p f =>
       match f !! p with
       | Some (File b) => inr b
       | _ => inl (lit "ENOENT")
       end;
     h_exec := shell;
     h_fetch := net;
     h_spawn := fun _ _ _ _ f =>
       ({| sp_status := status; sp_stdout := out; sp_stderr := err |}, f);
     h_encodeURIComponent := fun s => inr s;
     h_parseFloat := parse |}.

(** Collaborators that all succeed; [keys] is what [validateProviderKeys]
    answers, [config] what [validateConfig] throws. *)
Definition collab (ctx : Context) (config : option Exn) (keys : bool) : Collab :=
  {| c_buildContext := inr ctx;
     c_validateConfig := fun _ => config;
     c_gitSetup := fun _ f => (None, f);
     c_isInsideGitRepo := fun _ => inr true;
     c_setupLocalRepository := fun _ f => (None, f);
     c_ensureBranch := fun _ f => (None, f);
     c_validateProviderKeys := inr keys;
     c_postComment := fun _ _ => None;
     c_writeOutput := fun _ _ => None |}.

Definition start (f : FS) : State := {| fs := f; trace := []; ticks := 0 |}.

Definition no_shell (cmd : jsstring) (f : FS) : (Exn + jsstring) * FS :=
  (inl (lit "Command failed"), f).

Definition no_net (r : Request) : Exn + Response := inl (lit "fetch failed").

Definition nan_parse (s : jsstring) : float := PrimFloat.nan.

(** A shell on which every command succeeds silently and changes nothing:
    an archive without conversation units has been extracted. *)
Definition quiet_shell (cmd : jsstring) (f : FS) : (Exn + jsstring) * FS :=
  (inr [], f).

(** A shell after whose commands the message store exists and whose listing
    names the conversation unit [ses_abc]. *)
Definition restoring_shell (cmd : jsstring) (f : FS) : (Exn + jsstring) * FS :=
  (inr (lit "ses_abc" ++ [newline]),
   <[lit "/root/.local/share/opencode/storage/message" := Dir]> f).

Definition store_has (body : list N) (r : Request) : Exn + Response :=
  inr (ok_response body).

Definition store_lacks (r : Request) : Exn + Response := inr not_found.

(** A host for the session store: the shell [shell], the remote store
    [net]. *)
Definition store_host (shell : jsstring -> FS -> (Exn + jsstring) * FS)
  (net : Request -> Exn + Response) : Host :=
  host (Some 0) None None shell net nan_parse.

(** A host whose child process exits with [status], having written [out]
    and [err]; nothing else is available. *)
Definition child_host (status : option Z) (out err : option jsstring) : Host :=
  host status out err no_shell no_net nan_parse.

(** A shell on which every command succeeds silently and leaves an archive
    at the scratch path. *)
Definition zipping_shell (cmd : jsstring) (f : FS) : (Exn + jsstring) * FS :=
  (inr [], <[Session.SESSION_ZIP_PATH := File [80; 75]%N]> f).

(** A file system that holds the state directory. *)
Definition state_dir : FS := {[ lit "/root/.local/share/opencode" := Dir ]}.

(** How jq writes, and [parseFloat] reads, the one number the example
    needs; every other number is written as [0]. *)
Definition print_json (v : Jq.Json) : jsstring :=
  match v with
  | Jq.JNum x =>
      if PrimFloat.eqb x 0.30000000000000004%float
      then lit "0.30000000000000004" else lit "0"
  | _ => lit "null"
  end.

Definition parse_float (s : jsstring) : float :=
  if bool_decide (s = lit "0.30000000000000004") then 0.30000000000000004%float
  else if bool_decide (s = lit "0") then 0%float
  else PrimFloat.nan.

(** A shell over one conversation unit, [ses_1], holding the record files
    [files]: the listing names the unit, and the cost command is jq run on
    the files. *)
Definition cost_shell (files : list (option Jq.Json)) (cmd : jsstring) (f : FS)
  : (Exn + jsstring) * FS :=
  if bool_decide (cmd = lit "ls -td /root/.local/share/opencode/storage/message/ses_* | head -n 1 | xargs basename")
  then (inr (lit "ses_1" ++ [newline]), f)
  else if bool_decide (cmd = lit "jq -s 'map(.cost) | add' /root/.local/share/opencode/storage/message/ses_1/*.json")
  then (Jq.exec print_json files, f)
  else (inl (lit "Command failed"), f).

Definition cost_host (files : list (option Jq.Json)) : Host :=
  host (Some 0) (Some (lit "done")) None (cost_shell files) no_net parse_float.

(** Sixty plain answer lines and two log lines. *)
Definition plain_lines : list jsstring :=
  List.map (fun n => lit "answer " ++ [(65 + N.of_nat n)%N]) (seq 0 60).

Definition info_lines : list jsstring :=
  [lit "[INFO] step done"; lit "[INFO] exiting"].

End Sample.

(* ===================================================================== *)
(** * Properties *)
(* ===================================================================== *)

(** ** Facts about strings *)

Section StringFacts.

Lemma split_on_nonempty c s : split_on c s <> [].
Proof.
  destruct s as [|x r]; simpl; [discriminate|].
  destruct (x =? c)%N; [discriminate|].
  destruct (split_on c r); discriminate.
Qed.

Lemma join_cons sep x l :
  l <> [] -> join sep (x :: l) = x ++ sep ++ join sep l.
Proof. destruct l; [congruence | reflexivity]. Qed.

(** Splitting loses nothing: joining the components with the separator
    gives the string back. *)
Lemma join_split_on c s : join [c] (split_on c s) = s.
Proof.
  induction s as [|x r IH]; [reflexivity|].
  simpl. destruct (N.eqb_spec x c) as [->|Hne].
  - rewrite join_cons by apply split_on_nonempty. simpl. now rewrite IH.
  - pose proof (split_on_nonempty c r) as Hr.
    destruct (split_on c r) as [|p t]; [congruence|].
    destruct t as [|q t].
    + simpl in *. now rewrite IH.
    + rewrite join_cons by discriminate.
      rewrite join_cons in IH by discriminate.
      simpl. now rewrite <- IH.
Qed.

(** No component contains the separator. *)
Lemma split_on_free c s : Forall (fun p => ~ In c p) (split_on c s).
Proof.
  induction s as [|x r IH]; simpl.
  - constructor; [intros [] | constructor].
  - destruct (N.eqb_spec x c) as [->|Hne].
    + constructor; [intros [] | exact IH].
    + destruct (split_on c r) as [|p t]; [repeat constructor; simpl; tauto|].
      inversion IH; subst. constructor; [|assumption].
      simpl. intros [Hx|Hin]; [congruence | contradiction].
Qed.

Lemma split_on_app c x s :
  ~ In c x -> split_on c (x ++ c :: s) = x :: split_on c s.
Proof.
  induction x as [|a x IH]; simpl; intros Hc.
  - now rewrite N.eqb_refl.
  - destruct (N.eqb_spec a c) as [->|Hne]; [tauto|].
    rewrite IH by tauto. reflexivity.
Qed.

Lemma split_on_single c x : ~ In c x -> split_on c x = [x].
Proof.
  induction x as [|a x IH]; simpl; intros Hc; [reflexivity|].
  destruct (N.eqb_spec a c) as [->|Hne]; [tauto|].
  rewrite IH by tauto. reflexivity.
Qed.

(** The components of a string are determined by it. *)
Lemma split_on_join c l :
  l <> [] -> Forall (fun p => ~ In c p) l -> split_on c (join [c] l) = l.
Proof.
  induction l as [|x l IH]; [congruence|].
  intros _ Hall. inversion Hall as [|? ? Hx Hl]; subst.
  destruct l as [|y l].
  - simpl. now apply split_on_single.
  - rewrite join_cons by discriminate.
    change ([c] ++ join [c] (y :: l)) with (c :: join [c] (y :: l)).
    rewrite split_on_app by assumption.
    f_equal. apply IH; [discriminate | assumption].
Qed.

Lemma startsWith_spec p s :
  startsWith p s = true <-> exists t, s = p ++ t.
Proof.
  revert s. induction p as [|a p IH]; intros s; simpl.
  - split; [eauto | reflexivity].
  - destruct s as [|b s].
    + split; [discriminate | intros [t Ht]; discriminate].
    + rewrite andb_true_iff, N.eqb_eq, IH. split.
      * intros [-> [t ->]]. eauto.
      * intros [t Ht]. injection Ht as -> ->. eauto.
Qed.


Lemma trimStart_snoc a x :
  is_ws x = false -> trimStart (a ++ [x]) = trimStart a ++ [x].
Proof.
  intros Hx. induction a as [|y a IH]; simpl.
  - now rewrite Hx.
  - destruct (is_ws y); [exact IH | reflexivity].
Qed.

(** Trimming keeps a first character that is not white space. *)
Lemma trim_head x r :
  is_ws x = false -> exists t, trim (x :: r) = x :: t.
Proof.
  intros Hx. unfold trim, trimEnd.
  assert (H1 : trimStart (x :: r) = x :: r) by (simpl; now rewrite Hx).
  rewrite H1. simpl rev.
  rewrite trimStart_snoc by assumption.
  rewrite rev_app_distr. simpl. eauto.
Qed.

End StringFacts.

(** ** Running computations *)

Ltac run_step :=
  unfold mkdirSync, rmSync, writeFileSync, readFileSync, execSync, fetch,
    spawnSync, now in *;
  unfold when, logs, log, of_sum, of_faults in *;
  unfold throw, try_catch, emit, get_fs, set_fs, effect, exit, existsSync in *;
  unfold mbind, M_bind, mret, M_ret in *;
  simpl in *.

(** ** Session identifiers *)

Section SessionIds.
Import Session.

(** C7. [getSessionId] depends on the project id and the branch only, so
    equal inputs give equal identifiers; and for one project id, two
    different branch names give two different identifiers. *)
Theorem getSessionId_deterministic_branch_injective (c1 c2 : Context) :
  (projectId c1 = projectId c2 -> branch c1 = branch c2 ->
   getSessionId c1 = getSessionId c2)
  /\ (projectId c1 = projectId c2 -> branch c1 <> branch c2 ->
      getSessionId c1 <> getSessionId c2).
Proof.
  unfold getSessionId. split.
  - intros -> ->. reflexivity.
  - intros Hp Hb Heq. rewrite Hp in Heq.
    apply app_inv_head in Heq. apply app_inv_head in Heq. contradiction.
Qed.

Lemma getSessionId_branches_witness :
  getSessionId (Sample.context "7" "main" "p/m")
  <> getSessionId (Sample.context "7" "feature/x" "p/m").
Proof.
  apply (proj2 (getSessionId_deterministic_branch_injective
                  (Sample.context "7" "main" "p/m")
                  (Sample.context "7" "feature/x" "p/m"))).
  - reflexivity.
  - vm_compute. discriminate.
Defined.

(** C9. Across projects the identifier is not injective: project "1" with
    branch "2_x" and project "1_2" with branch "x" are different pairs with
    the same identifier, because an underscore inside either attribute is
    joined in unescaped; this holds for any such regrouping. *)
Theorem getSessionId_collides_across_projects :
  (exists c1 c2 : Context,
      projectId c1 = lit "1" /\ branch c1 = lit "2_x" /\
      projectId c2 = lit "1_2" /\ branch c2 = lit "x" /\
      (projectId c1, branch c1) <> (projectId c2, branch c2) /\
      getSessionId c1 = getSessionId c2)
  /\ (forall (c : Context) (p x b : jsstring),
        getSessionId (with_ids c p (x ++ lit "_" ++ b))
        = getSessionId (with_ids c (p ++ lit "_" ++ x) b)).
Proof.
  split.
  - exists (Sample.context "1" "2_x" "p/m"), (Sample.context "1_2" "x" "p/m").
    repeat split; try reflexivity. vm_compute. discriminate.
  - intros c p x b. unfold getSessionId. simpl. now rewrite <- !app_assoc.
Qed.

End SessionIds.

(** ** The final response *)

Section FinalResponse.
Import Opencode.
Local Open Scope nat_scope.

Lemma lastn_nil {A} k : lastn k (@nil A) = [].
Proof. unfold lastn. now rewrite drop_nil. Qed.

Lemma lastn_0 {A} (l : list A) : lastn 0 l = [].
Proof. unfold lastn. rewrite Nat.sub_0_r. apply drop_all. Qed.

Lemma lastn_snoc {A} k (l : list A) x :
  lastn (S k) (l ++ [x]) = lastn k l ++ [x].
Proof.
  unfold lastn. rewrite length_app. simpl.
  replace (length l + 1 - S k) with (length l - k) by lia.
  apply drop_app_le. lia.
Qed.

Lemma lastn_short {A} k (l : list A) : length l <= k -> lastn k l = l.
Proof.
  intros H. unfold lastn. replace (length l - k) with 0 by lia. reflexivity.
Qed.

Lemma lastn_length {A} k (l : list A) :
  length (lastn k l) = Nat.min k (length l).
Proof. unfold lastn. rewrite length_drop. lia. Qed.

(** The loop, started at index [n - 1] with [acc] already collected, adds
    in front of [acc] the last qualifying lines among the first [n], as many
    as still fit under 50. *)
Lemma scanLines_spec lines n acc :
  n <= length lines -> length acc <= 50 ->
  scanLines lines n acc
  = lastn (50 - length acc) (List.filter qualifies (take n lines)) ++ acc.
Proof.
  revert acc. induction n as [|i IH]; intros acc Hn Hacc.
  - simpl scanLines. rewrite take_0. simpl List.filter. now rewrite lastn_nil.
  - simpl scanLines.
    destruct (Nat.ltb_spec (length acc) 50) as [Hlt|Hge].
    + destruct (lookup_lt_is_Some_2 lines i) as [x Hx]; [lia|].
      rewrite (nth_lookup_Some _ _ _ _ Hx).
      rewrite (take_S_r _ _ _ Hx), List.filter_app. simpl List.filter.
      fold (qualifies x).
      destruct (qualifies x).
      * rewrite IH by (simpl; lia). simpl length.
        replace (50 - length acc) with (S (50 - S (length acc))) by lia.
        rewrite lastn_snoc, <- app_assoc. reflexivity.
      * rewrite app_nil_r. apply IH; lia.
    + replace (50 - length acc) with 0 by lia. now rewrite lastn_0.
Qed.

(** [finalResponse] in closed form. *)
Lemma extractFinalResponse_spec fullOutput :
  extractFinalResponse fullOutput
  = match List.filter qualifies (split_on newline fullOutput) with
    | [] => fullOutput
    | kept => trim (join [newline] (lastn 50 kept))
    end.
Proof.
  unfold extractFinalResponse.
  rewrite scanLines_spec by (simpl; lia).
  rewrite take_ge by lia. rewrite app_nil_r. simpl length.
  replace (50 - 0) with 50 by lia.
  destruct (List.filter qualifies (split_on newline fullOutput)) as [|y kept] eqn:E.
  - rewrite lastn_nil. reflexivity.
  - destruct (Nat.ltb_spec 0 (length (lastn 50 (y :: kept)))) as [_|H]; [reflexivity|].
    rewrite lastn_length in H. simpl in H. lia.
Qed.

Lemma bracket_not_qualifies l :
  startsWith (lit "[") l = true -> qualifies l = false.
Proof.
  intros H. apply startsWith_spec in H as [t ->]. unfold qualifies.
  destruct (trim_head 91%N t) as [u Hu]; [reflexivity|].
  change (lit "[" ++ t) with (91%N :: t). rewrite Hu.
  unfold keepLine. simpl. reflexivity.
Qed.

Lemma filter_none {A} (f : A -> bool) l :
  Forall (fun x => f x = false) l -> List.filter f l = [].
Proof.
  induction 1 as [|x l Hx _ IH]; simpl; [reflexivity|]. now rewrite Hx.
Qed.

Lemma filter_all {A} (f : A -> bool) l :
  Forall (fun x => f x = true) l -> List.filter f l = l.
Proof.
  induction 1 as [|x l Hx _ IH]; simpl; [reflexivity|]. now rewrite Hx, IH.
Qed.

End FinalResponse.

Section FinalResponseClaim.
Import Opencode.
Local Open Scope nat_scope.

Lemma single_line_spec l : single_line l = true -> ~ In newline l.
Proof.
  unfold single_line. rewrite negb_true_iff. intros H Hin.
  assert (existsb (N.eqb newline) l = true); [|congruence].
  apply existsb_exists. exists newline. split; [assumption | apply N.eqb_refl].
Qed.

Lemma runOpencode_finalResponse h ctx p s r s' :
  runOpencode h ctx p s = (Ret r, s') ->
  finalResponse r = extractFinalResponse (fullOutput r).
Proof.
  unfold runOpencode, launch, checkStatus. run_step.
  repeat (case_match; simplify_eq/=); intros; simplify_eq/=; reflexivity.
Qed.

(** C4 (as the code has it). [finalResponse] is the text of the last at
    most 50 qualifying lines, joined by line ends in their original order
    and then trimmed of white space at both ends, where a line qualifies when
    its trimmed text is non-empty, does not start with a bracket and holds
    neither "Tool:" nor ">>>"; with no qualifying line it is the whole of
    [fullOutput]; with at most 50 qualifying lines all of them are used; and
    for 60 qualifying lines followed by lines starting with "[INFO]" it is
    the last 50 of the 60. *)
Theorem finalResponse_last_50_trimmed (h : Host) (ctx : Context)
  (p : option jsstring) (s : State) :
  (forall r s', runOpencode h ctx p s = (Ret r, s') ->
     finalResponse r = extractFinalResponse (fullOutput r))
  /\ (forall fullOutput,
        extractFinalResponse fullOutput
        = match List.filter qualifies (split_on newline fullOutput) with
          | [] => fullOutput
          | kept => trim (join [newline] (lastn 50 kept))
          end)
  /\ (forall fullOutput,
        let kept := List.filter qualifies (split_on newline fullOutput) in
        kept <> [] -> length kept <= 50 ->
        extractFinalResponse fullOutput = trim (join [newline] kept))
  /\ (forall plain infos,
        length plain = 60 ->
        forallb (fun l => qualifies l && single_line l) plain = true ->
        forallb (fun l => startsWith (lit "[INFO]") l && single_line l) infos = true ->
        extractFinalResponse (join [newline] (plain ++ infos))
        = trim (join [newline] (drop 10 plain))).
Proof.
  split; [|split; [|split]].
  - intros r s'. apply runOpencode_finalResponse.
  - apply extractFinalResponse_spec.
  - intros fullOutput kept Hne Hlen. rewrite extractFinalResponse_spec.
    fold kept. destruct kept as [|y k] eqn:E; [congruence|].
    now rewrite lastn_short.
  - intros plain infos Hlen Hplain Hinfos.
    rewrite forallb_forall in Hplain, Hinfos.
    rewrite extractFinalResponse_spec.
    rewrite split_on_join.
    + rewrite List.filter_app.
      rewrite (filter_all qualifies plain).
      * rewrite (filter_none qualifies infos).
        -- rewrite app_nil_r. destruct plain as [|y k] eqn:E; [discriminate|].
           rewrite <- E in *. unfold lastn. rewrite Hlen. reflexivity.
        -- apply List.Forall_forall. intros l Hl. apply bracket_not_qualifies.
           specialize (Hinfos l Hl). apply andb_true_iff in Hinfos as [Hi _].
           apply startsWith_spec in Hi as [t ->]. apply startsWith_spec.
           exists (lit "INFO]" ++ t). reflexivity.
      * apply List.Forall_forall. intros l Hl. specialize (Hplain l Hl).
        now apply andb_true_iff in Hplain as [? _].
    + destruct plain; [discriminate | discriminate].
    + apply List.Forall_forall. intros l Hl. apply single_line_spec.
      apply in_app_or in Hl as [Hl|Hl].
      * specialize (Hplain l Hl). now apply andb_true_iff in Hplain as [_ ?].
      * specialize (Hinfos l Hl). now apply andb_true_iff in Hinfos as [_ ?].
Qed.

Lemma finalResponse_last_50_trimmed_witness :
  extractFinalResponse (join [newline] (Sample.plain_lines ++ Sample.info_lines))
  = join [newline] (drop 10 Sample.plain_lines).
Proof.
  pose proof (finalResponse_last_50_trimmed
                (Sample.host (Some 0%Z) None None Sample.no_shell Sample.no_net
                             Sample.nan_parse)
                (Sample.context "7" "main" "p/m") None (Sample.start ∅))
    as [_ [_ [_ H]]].
  rewrite (H Sample.plain_lines Sample.info_lines);
    [vm_compute; reflexivity | reflexivity | vm_compute; reflexivity
    | vm_compute; reflexivity].
Defined.

(** C4, counterexample: on the output [" a"] the only line qualifies, the
    join of the qualifying lines is [" a"], and [finalResponse] is ["a"]. *)
Lemma finalResponse_is_not_the_plain_join :
  let fullOutput := lit " a" in
  List.filter qualifies (split_on newline fullOutput) = [lit " a"]
  /\ extractFinalResponse fullOutput = lit "a"
  /\ extractFinalResponse fullOutput
     <> join [newline] (lastn 50 (List.filter qualifies (split_on newline fullOutput))).
Proof. vm_compute. repeat split; try reflexivity. discriminate. Qed.

End FinalResponseClaim.

(** ** The model specifier and the child's exit status *)

Section Invocation.
Import Opencode.

Lemma falsy_false o : falsy o = false <-> exists s, o = Some s /\ s <> [].
Proof.
  destruct o as [[|x r]|]; simpl.
  - split; [discriminate | intros [s [[= <-] Hs]]; congruence].
  - split; [|reflexivity].
    intros _. exists (x :: r). split; [reflexivity | discriminate].
  - split; [discriminate | intros [s [[=] _]]].
Qed.

(** The guard lets a specifier through exactly when its first two
    components exist and are non-empty. *)
Lemma invalidModel_false model :
  invalidModel model = false
  <-> exists prov mdl rest,
      split_on slash model = prov :: mdl :: rest /\ prov <> [] /\ mdl <> [].
Proof.
  unfold invalidModel. rewrite orb_false_iff, !falsy_false. split.
  - intros [[a [Ha Hane]] [b [Hb Hbne]]].
    destruct (split_on slash model) as [|x [|y rest]]; simpl in *; try discriminate.
    injection Ha as <-. injection Hb as <-.
    exists x, y, rest. repeat split; assumption.
  - intros [prov [mdl [rest [-> [Hp Hm]]]]]. simpl.
    split; [exists prov | exists mdl]; split; auto.
Qed.

Lemma launch_invalid h ctx p stdio s :
  invalidModel (opencodeModel ctx) = true ->
  launch h ctx p stdio s
  = (Throw (invalidModelError (opencodeModel ctx)), record_events s [startLog]).
Proof. intros H. unfold launch. run_step. rewrite H. reflexivity. Qed.

Lemma launch_valid h ctx p stdio s :
  invalidModel (opencodeModel ctx) = false ->
  launch h ctx p stdio s
  = let '(r, f') := h_spawn h (lit "opencode") (cliArgs ctx) (cliInput ctx p)
                      stdio (fs s) in
    (Ret r,
     {| fs := f';
        trace := trace s ++ launchLogs ctx
                 ++ [EvSpawn (lit "opencode") (cliArgs ctx) (cliInput ctx p) stdio];
        ticks := ticks s |}).
Proof.
  intros H. unfold launch. run_step. rewrite H.
  destruct (h_spawn _ _ _ _ _ _) as [r f']. simpl.
  unfold launchLogs, startLog. now rewrite <- !app_assoc.
Qed.

End Invocation.

Section InvocationClaims.
Import Opencode.

Lemma runOpencode_invalid h ctx p s :
  invalidModel (opencodeModel ctx) = true ->
  runOpencode h ctx p s
  = (Throw (invalidModelError (opencodeModel ctx)), record_events s [startLog]).
Proof.
  intros H. unfold runOpencode, mbind, M_bind.
  now rewrite (launch_invalid h ctx p Piped s H).
Qed.

Lemma runOpencode_inherit_invalid h ctx p s :
  invalidModel (opencodeModel ctx) = true ->
  runOpencode_inherit h ctx p s
  = (Throw (invalidModelError (opencodeModel ctx)), record_events s [startLog]).
Proof.
  intros H. unfold runOpencode_inherit, mbind, M_bind.
  now rewrite (launch_invalid h ctx p Inherited s H).
Qed.

(** Past the guard the child is started: the events up to [spawnSync] are
    the trace of every such call. *)
Lemma runOpencode_spawns h ctx p s :
  invalidModel (opencodeModel ctx) = false ->
  exists o s' rest,
    runOpencode h ctx p s = (o, s')
    /\ trace s' = trace s ++ launchLogs ctx
                  ++ EvSpawn (lit "opencode") (cliArgs ctx) (cliInput ctx p) Piped
                  :: rest.
Proof.
  intros H. unfold runOpencode, mbind, M_bind at 1.
  rewrite (launch_valid h ctx p Piped s H).
  destruct (h_spawn _ _ _ _ _ _) as [r f']. unfold checkStatus. run_step.
  repeat case_match; simplify_eq/=;
    do 3 eexists; (split; [reflexivity|]); simpl;
    rewrite <- ?app_assoc; simpl; reflexivity.
Qed.

Lemma runOpencode_inherit_spawns h ctx p s :
  invalidModel (opencodeModel ctx) = false ->
  exists o s' rest,
    runOpencode_inherit h ctx p s = (o, s')
    /\ trace s' = trace s ++ launchLogs ctx
                  ++ EvSpawn (lit "opencode") (cliArgs ctx) (cliInput ctx p) Inherited
                  :: rest.
Proof.
  intros H. unfold runOpencode_inherit, mbind, M_bind at 1.
  rewrite (launch_valid h ctx p Inherited s H).
  destruct (h_spawn _ _ _ _ _ _) as [r f']. unfold checkStatus. run_step.
  repeat case_match; simplify_eq/=;
    do 3 eexists; (split; [reflexivity|]); simpl;
    rewrite <- ?app_assoc; simpl; reflexivity.
Qed.

(** C3 (as the code has it). The guard of [runOpencode] looks at the first
    two components of the specifier split on '/': it fails, with the error
    "Invalid OPENCODE_MODEL format", after the opening log line and before
    any child is started, exactly when one of the two is missing or empty
    (so for a specifier without separator and for an empty first or second
    component); otherwise it passes and the child is started, whether the
    specifier has two components or more. Both revisions agree. *)
Theorem model_guard_checks_first_two_components (h : Host) (ctx : Context)
  (p : option jsstring) (s : State) :
  let model := opencodeModel ctx in
  (invalidModel model = false
   <-> exists prov mdl rest,
       split_on slash model = prov :: mdl :: rest /\ prov <> [] /\ mdl <> [])
  /\ (invalidModel model = true ->
      runOpencode h ctx p s
      = (Throw (invalidModelError model), record_events s [startLog])
      /\ runOpencode_inherit h ctx p s
         = (Throw (invalidModelError model), record_events s [startLog]))
  /\ (invalidModel model = false ->
      (exists o s' rest,
          runOpencode h ctx p s = (o, s')
          /\ trace s' = trace s ++ launchLogs ctx
                        ++ EvSpawn (lit "opencode") (cliArgs ctx) (cliInput ctx p) Piped
                        :: rest)
      /\ (exists o s' rest,
             runOpencode_inherit h ctx p s = (o, s')
             /\ trace s' = trace s ++ launchLogs ctx
                           ++ EvSpawn (lit "opencode") (cliArgs ctx) (cliInput ctx p) Inherited
                           :: rest))
  /\ (~ In slash model -> invalidModel model = true)
  /\ (forall prov mdl rest, split_on slash model = prov :: mdl :: rest ->
        prov = [] \/ mdl = [] -> invalidModel model = true)
  /\ (forall prov mdl, split_on slash model = [prov; mdl] ->
        prov <> [] -> mdl <> [] -> invalidModel model = false).
Proof.
  intros model. split; [|split; [|split; [|split; [|split]]]].
  - apply invalidModel_false.
  - intros H. split;
      [now apply runOpencode_invalid | now apply runOpencode_inherit_invalid].
  - intros H. split;
      [now apply runOpencode_spawns | now apply runOpencode_inherit_spawns].
  - intros Hfree. unfold invalidModel.
    rewrite (split_on_single slash model Hfree). simpl. apply orb_true_r.
  - intros prov mdl rest Hs Hempty.
    destruct (invalidModel model) eqn:E; [reflexivity|].
    apply invalidModel_false in E as [a [b [r [E [Ha Hb]]]]].
    rewrite Hs in E. injection E as -> -> ->. tauto.
  - intros prov mdl Hs Hp Hm. apply invalidModel_false. eauto 6.
Qed.

Lemma model_guard_witness :
  Opencode.runOpencode (Sample.child_host (Some 0) None None)
    (Sample.context "7" "main" "nomodel") None (Sample.start ∅)
  = (Throw (lit "Invalid OPENCODE_MODEL format: nomodel. Expected format: provider/model"),
     record_events (Sample.start ∅) [startLog]).
Proof.
  pose proof (model_guard_checks_first_two_components
                (Sample.child_host (Some 0) None None)
                (Sample.context "7" "main" "nomodel") None (Sample.start ∅))
    as [_ [H _]].
  destruct (H eq_refl) as [H1 _]. exact H1.
Defined.

(** C3, counterexample: "a/b/c" splits into three components, yet the guard
    passes and the child is started and its result returned. *)
Lemma three_components_pass_the_guard :
  let ctx := Sample.context "7" "main" "a/b/c" in
  let h := Sample.child_host (Some 0) (Some (lit "done")) None in
  split_on slash (opencodeModel ctx) = [lit "a"; lit "b"; lit "c"]
  /\ fst (runOpencode h ctx None (Sample.start ∅))
     = Ret {| fullOutput := lit "done"; finalResponse := lit "done"; stderr := [] |}
  /\ In (EvSpawn (lit "opencode") (cliArgs ctx) (cliInput ctx None) Piped)
        (trace (snd (runOpencode h ctx None (Sample.start ∅)))).
Proof.
  vm_compute. repeat split. right. right. right. right. left. reflexivity.
Qed.



End InvocationClaims.

(** ** The session store *)

Section SessionStore.
Import Session.

(** [unzipSession] never throws: its [catch] turns every error into
    [null]. *)
Lemma unzipSession_returns h zipPath s :
  exists r s', unzipSession h zipPath s = (Ret r, s').
Proof.
  unfold unzipSession, getLatestSessionId. run_step.
  repeat case_match; simplify_eq/=; eauto.
Qed.

(** C6. For an archive path with nothing at it, [unzipSession] logs the
    warning "Session zip not found at ..." and returns [null]; that warning
    is its only effect: no directory is created, no command is run, and the
    file system, the state directory included, is what it was. *)
Theorem unzipSession_missing_archive (h : Host) (zipPath : jsstring) (s : State) :
  fs s !! zipPath = None ->
  unzipSession h zipPath s
  = (Ret None,
     record_events s
       [EvLog LWarn [PStr (lit "Session zip not found at " ++ zipPath)]])
  /\ fs (snd (unzipSession h zipPath s)) = fs s
  /\ (fs s !! OPENCODE_DIR h = None ->
      fs (snd (unzipSession h zipPath s)) !! OPENCODE_DIR h = None).
Proof.
  intros Hmissing.
  assert (E : unzipSession h zipPath s
              = (Ret None,
                 record_events s
                   [EvLog LWarn [PStr (lit "Session zip not found at " ++ zipPath)]])).
  { unfold unzipSession. run_step. rewrite Hmissing.
    rewrite bool_decide_eq_false_2 by (intros [x Hx]; discriminate).
    reflexivity. }
  rewrite E. simpl. auto.
Qed.

Lemma unzipSession_missing_archive_witness :
  let s := {| fs := {[ lit "/root/.local/share/opencode" := Dir ]};
              trace := []; ticks := 0 |} in
  unzipSession (Sample.store_host Sample.quiet_shell Sample.no_net)
    (lit "/tmp/none.zip") s
  = (Ret None,
     record_events s
       [EvLog LWarn [PStr (lit "Session zip not found at /tmp/none.zip")]]).
Proof.
  intros s.
  refine (proj1 (unzipSession_missing_archive
                   (Sample.store_host Sample.quiet_shell Sample.no_net)
                   (lit "/tmp/none.zip") s _)).
  vm_compute. reflexivity.
Defined.

(** C10. When the remote store answers with a 2xx status (and the body is
    read and written to the scratch archive), [downloadSession] returns
    what [unzipSession] returns on that archive, [null] included.  So a caller
    can see three kinds of value: a conversation id, [false] (here on a 404),
    and [null], the latter both when the extraction fails and when the
    extracted archive holds no conversation unit. *)
Theorem downloadSession_three_outcomes :
  (forall (h : Host) (ctx : Context) (s : State) enc resp buf f1,
      h_encodeURIComponent h (getSessionId ctx) = inr enc ->
      h_fetch h (downloadRequest ctx (sessionUrl ctx enc)) = inr resp ->
      rs_ok resp = true ->
      rs_arrayBuffer resp = inr buf ->
      h_writeFile h SESSION_ZIP_PATH buf (fs s) = (None, f1) ->
      exists s1 r s2,
        fs s1 = f1
        /\ unzipSession h SESSION_ZIP_PATH s1 = (Ret r, s2)
        /\ downloadSession h ctx s = (Ret (of_nullable r), s2))
  /\ (let ctx := Sample.context "7" "main" "p/m" in
      fst (downloadSession
             (Sample.store_host Sample.restoring_shell (Sample.store_has [80; 75]%N))
             ctx (Sample.start ∅))
      = Ret (VStr (lit "ses_abc"))
      /\ fst (downloadSession
                (Sample.store_host Sample.restoring_shell Sample.store_lacks)
                ctx (Sample.start ∅))
         = Ret (VBool false)
      /\ fst (downloadSession
                (Sample.store_host Sample.no_shell (Sample.store_has [80; 75]%N))
                ctx (Sample.start ∅))
         = Ret VNull
      /\ fst (downloadSession
                (Sample.store_host Sample.quiet_shell (Sample.store_has [80; 75]%N))
                ctx (Sample.start ∅))
         = Ret VNull).
Proof.
  split.
  - intros h ctx s enc resp buf f1 Henc Hfetch Hok Hbuf Hwrite.
    assert (H404 : (rs_status resp =? 404) = false).
    { unfold rs_ok in Hok. apply andb_true_iff in Hok as [_ Hle].
      apply Z.leb_le in Hle. apply Z.eqb_neq. lia. }
    set (s1 := {| fs := f1;
                  trace := trace s
                    ++ [EvLog LInfo [PStr (lit "Downloading session from API: "
                                           ++ getSessionId ctx)];
                        EvFetch (downloadRequest ctx (sessionUrl ctx enc));
                        EvWriteFile SESSION_ZIP_PATH buf;
                        EvLog LSuccess [PStr (lit "Session downloaded from API")]];
                  ticks := ticks s |}).
    destruct (unzipSession_returns h SESSION_ZIP_PATH s1) as [r [s2 Hunzip]].
    exists s1, r, s2. split; [reflexivity|]. split; [exact Hunzip|].
    unfold downloadSession.
    unfold fetch, writeFileSync, when, logs, log, of_sum, of_faults, throw,
      try_catch, emit, effect, mbind, M_bind, mret, M_ret.
    rewrite Henc. cbn [fs trace ticks]. rewrite Hfetch.
    cbn [fs trace ticks]. rewrite H404, Hok. cbn [negb]. rewrite Hbuf.
    cbn [fs trace ticks]. rewrite Hwrite. cbn [fs trace ticks].
    rewrite <- !app_assoc. cbn [app]. fold s1. rewrite Hunzip. reflexivity.
  - vm_compute. repeat split.
Qed.

Lemma downloadSession_null_witness :
  let h := Sample.store_host Sample.no_shell (Sample.store_has [80; 75]%N) in
  let ctx := Sample.context "7" "main" "p/m" in
  exists s1 r s2,
    fs s1 = {[ SESSION_ZIP_PATH := File [80; 75]%N ]}
    /\ unzipSession h SESSION_ZIP_PATH s1 = (Ret r, s2)
    /\ downloadSession h ctx (Sample.start ∅) = (Ret (of_nullable r), s2).
Proof.
  intros h ctx.
  refine (proj1 downloadSession_three_outcomes h ctx (Sample.start ∅)
            (getSessionId ctx) (Sample.ok_response [80; 75]%N) [80; 75]%N
            {[ SESSION_ZIP_PATH := File [80; 75]%N ]} _ _ _ _ _);
    reflexivity.
Defined.

End SessionStore.

(** ** The orchestrator *)

Section Orchestrator.
Import Runner.

Lemma filter_io_app a b : List.filter io (a ++ b) = List.filter io a ++ List.filter io b.
Proof. apply List.filter_app. Qed.

(** The cost step always returns: its value and its commands are those of
    [totalCostOn] and [costCommands], whatever the shell answers. *)
Lemma computeCost_total h t s :
  exists evs f',
    computeCost h t s
    = (Ret (totalCostOn h (fs s)),
       {| fs := f'; trace := trace s ++ evs; ticks := ticks s |})
    /\ List.filter io evs = costCommands h (fs s).
Proof.
  unfold computeCost, totalCostOn, costCommands. run_step.
  destruct (h_exec h (sessionIdCmd h) (fs s)) as [[e|out] f1]; simpl.
  - eexists _, _. split; [rewrite <- app_assoc; reflexivity | reflexivity].
  - destruct (h_exec h (costCmd h (trim out)) f1) as [[e|out'] f2]; simpl.
    + eexists _, _. split; [rewrite <- !app_assoc; reflexivity | reflexivity].
    + eexists _, _. split; [rewrite <- !app_assoc; reflexivity | reflexivity].
Qed.

(** Reporting always returns, and its one action is the POST. *)
Lemma reportToSupabase_total h ctx cost t s :
  exists evs,
    reportToSupabase h ctx cost t s = (Ret tt, record_events s evs)
    /\ List.filter io evs = [EvFetch (telemetryRequest ctx cost t)].
Proof.
  unfold reportToSupabase, record_events. run_step.
  destruct (h_fetch h (telemetryRequest ctx cost t)) as [e|resp]; simpl.
  - eexists. split; [rewrite <- app_assoc; reflexivity | reflexivity].
  - destruct (rs_ok resp); simpl.
    + destruct (rs_upserted resp); simpl;
        eexists; (split; [rewrite <- !app_assoc; reflexivity | reflexivity]).
    + destruct (rs_text resp); simpl;
        eexists; (split; [rewrite <- !app_assoc; reflexivity | reflexivity]).
Qed.

(** A successful invocation: the child is the one thing started. *)
Lemma invoke_success h rev ctx p s :
  Opencode.invalidModel (opencodeModel ctx) = false ->
  sp_status (fst (h_spawn h (lit "opencode") (Opencode.cliArgs ctx)
                    (Opencode.cliInput ctx p) (stdio_of rev) (fs s))) = Some 0 ->
  exists evs,
    invoke h rev ctx p s
    = (Ret tt,
       {| fs := snd (h_spawn h (lit "opencode") (Opencode.cliArgs ctx)
                       (Opencode.cliInput ctx p) (stdio_of rev) (fs s));
          trace := trace s ++ evs; ticks := ticks s |})
    /\ List.filter io evs
       = [EvSpawn (lit "opencode") (Opencode.cliArgs ctx)
            (Opencode.cliInput ctx p) (stdio_of rev)].
Proof.
  intros Hvalid Hst. unfold invoke.
  destruct rev; simpl stdio_of in *.
  - unfold Opencode.runOpencode, mbind, M_bind at 1 2.
    rewrite (launch_valid h ctx p Piped s Hvalid).
    destruct (h_spawn _ _ _ _ _ _) as [r f']. simpl in Hst.
    unfold Opencode.checkStatus. run_step.
    rewrite bool_decide_eq_true_2 by assumption.
    repeat case_match; simplify_eq/=;
      eexists; (split; [rewrite <- ?app_assoc; reflexivity | reflexivity]).
  - unfold Opencode.runOpencode_inherit, mbind, M_bind at 1.
    rewrite (launch_valid h ctx p Inherited s Hvalid).
    destruct (h_spawn _ _ _ _ _ _) as [r f']. simpl in Hst.
    unfold Opencode.checkStatus. run_step.
    rewrite bool_decide_eq_true_2 by assumption. simpl.
    eexists; (split; [rewrite <- ?app_assoc; reflexivity | reflexivity]).
Qed.

(** The successful path of the [try], event by event. *)
Lemma attempt_success h c rev ctx t0 s inside keys f3 :
  setup_succeeds c ctx (fs s) inside keys f3 ->
  child_succeeds h rev ctx f3 ->
  let f4 := snd (h_spawn h (lit "opencode") (Opencode.cliArgs ctx)
                   (Opencode.cliInput ctx (prompt ctx)) (stdio_of rev) f3) in
  let t := roundSeconds (h_now h (ticks s) - t0) in
  let cost := totalCostOn h f4 in
  exists ev_inv ev_cost ev_rep f5,
    attempt h c rev ctx t0 s
    = (Exit 0,
       {| fs := f5;
          trace := trace s ++ setupEvents ctx inside keys ++ ev_inv
                   ++ [afterLog] ++ ev_cost ++ ev_rep
                   ++ [EvWriteOutput true (OutSuccess (prompt ctx) (branch ctx) cost t);
                       EvExit 0];
          ticks := S (ticks s) |})
    /\ List.filter io ev_inv
       = [EvSpawn (lit "opencode") (Opencode.cliArgs ctx)
            (Opencode.cliInput ctx (prompt ctx)) (stdio_of rev)]
    /\ List.filter io ev_cost = costCommands h f4
    /\ List.filter io ev_rep = [EvFetch (telemetryRequest ctx cost t)].
Proof.
  intros (Hcfg & (f1 & Hgit & Hinside & Hbranch) & Hkeys & Hout) (Hvalid & Hst).
  intros f4 t cost.
  unfold attempt, writeOutput.
  unfold when, logs, log, of_sum, of_faults;
  unfold throw, try_catch, emit, get_fs, set_fs, effect, exit, existsSync, now;
  unfold mbind, M_bind, mret, M_ret. cbn.
  rewrite Hcfg. cbn. rewrite Hgit. cbn. rewrite Hinside. cbn.
  destruct inside, keys; cbn in Hbranch |- *; rewrite Hbranch; cbn;
    rewrite Hkeys; cbn;
    match goal with
    | |- context [invoke h rev ctx (prompt ctx) ?st] =>
        destruct (invoke_success h rev ctx (prompt ctx) st Hvalid Hst)
          as (ev_inv & Hinv & Hio_inv)
    end;
    rewrite Hinv; cbn;
    match goal with
    | |- context [computeCost h ?t' ?st] =>
        destruct (computeCost_total h t' st)
          as (ev_cost & f5 & Hcost & Hio_cost)
    end;
    rewrite Hcost; cbn;
    match goal with
    | |- context [reportToSupabase h ctx ?x ?t' ?st] =>
        destruct (reportToSupabase_total h ctx x t' st)
          as (ev_rep & Hrep & Hio_rep)
    end;
    rewrite Hrep; cbn; rewrite Hout; cbn;
    exists ev_inv, ev_cost, ev_rep, f5;
    (split; [|auto]);
    unfold setupEvents, afterLog; cbn; rewrite <- !app_assoc; reflexivity.
Qed.

(** A run on which nothing fails, event by event. *)
Lemma run_success h c rev ctx s inside keys f3 :
  c_buildContext c = inr ctx ->
  setup_succeeds c ctx (fs s) inside keys f3 ->
  child_succeeds h rev ctx f3 ->
  let f4 := snd (h_spawn h (lit "opencode") (Opencode.cliArgs ctx)
                   (Opencode.cliInput ctx (prompt ctx)) (stdio_of rev) f3) in
  let t := roundSeconds (h_now h (S (ticks s)) - h_now h (ticks s)) in
  let cost := totalCostOn h f4 in
  exists evs f5,
    run h c rev s
    = (Exit 0,
       {| fs := f5; trace := trace s ++ bannerLogs ctx ++ evs;
          ticks := S (S (ticks s)) |})
    /\ List.filter io evs = successIo h rev ctx inside f4 cost t
    /\ (keys = false -> In noKeyWarning evs).
Proof.
  intros Hctx Hsetup Hchild f4 t cost.
  unfold run, logs, log, of_sum, emit, now, try_catch, mbind, M_bind, mret, M_ret.
  rewrite Hctx. cbn [fs trace ticks].
  match goal with
  | |- context [attempt h c rev ctx ?t0 ?st] =>
      destruct (attempt_success h c rev ctx t0 st inside keys f3 Hsetup Hchild)
        as (ev_inv & ev_cost & ev_rep & f5 & Hrun & Hio_inv & Hio_cost & Hio_rep)
  end.
  cbn [fs trace ticks] in Hrun. rewrite Hrun.
  eexists (setupEvents ctx inside keys ++ ev_inv ++ [afterLog] ++ ev_cost
           ++ ev_rep ++ [_; _]), f5.
  split; [|split].
  - unfold bannerLogs. rewrite <- !app_assoc. reflexivity.
  - rewrite !filter_io_app, Hio_inv, Hio_cost, Hio_rep.
    unfold successIo, setupEvents. destruct inside, keys; reflexivity.
  - intros ->. unfold setupEvents. apply in_or_app. left.
    apply in_or_app. right. apply in_or_app. left. left. reflexivity.
Qed.

(** A run whose configuration check throws, event by event. *)
Lemma run_config_failure h c rev ctx s msg :
  c_buildContext c = inr ctx ->
  c_validateConfig c ctx = Some msg ->
  c_postComment c ctx (errorComment msg) = None ->
  c_writeOutput c false (OutFailure msg) = None ->
  run h c rev s
  = (Exit 1,
     {| fs := fs s;
        trace := trace s ++ bannerLogs ctx ++ [EvValidateConfig] ++ failureEvents msg;
        ticks := S (ticks s) |}).
Proof.
  intros Hctx Hcfg Hpost Hout.
  unfold run, attempt, handleError, postComment, writeOutput.
  unfold logs, log, of_sum, of_faults, exit, throw, emit, now, try_catch,
    mbind, M_bind, mret, M_ret.
  rewrite Hctx. cbn [fs trace ticks]. rewrite Hcfg. cbn [fs trace ticks].
  rewrite Hpost. cbn [fs trace ticks]. rewrite Hout. cbn [fs trace ticks].
  unfold bannerLogs, failureEvents. rewrite <- !app_assoc. reflexivity.
Qed.

End Orchestrator.

(** ** The orchestrator's claims *)

Section OrchestratorClaims.
Import Runner.






(** C2 (as the code has it). A run whose configuration check throws ends
    with exit status 1 after logging the error, posting the failure comment
    and writing the output record with the [error] message: no child process,
    no telemetry POST and no session upload are attempted. A missing provider
    key is not such an error: when [validateProviderKeys] answers false the
    run logs a warning and goes on, and if nothing else fails it invokes the
    agent, posts the telemetry and exits with status 0. *)
Theorem config_error_fails_fast_missing_key_warns (h : Host) (c : Collab)
  (rev : Revision) (ctx : Context) (s : State) :
  c_buildContext c = inr ctx ->
  (forall msg,
      c_validateConfig c ctx = Some msg ->
      c_postComment c ctx (errorComment msg) = None ->
      c_writeOutput c false (OutFailure msg) = None ->
      exists evs,
        run h c rev s
        = (Exit 1, {| fs := fs s; trace := trace s ++ evs; ticks := S (ticks s) |})
        /\ List.filter io evs
           = [EvValidateConfig; EvPostComment (errorComment msg);
              EvWriteOutput false (OutFailure msg); EvExit 1]
        /\ existsb session_request evs = false)
  /\ (forall inside f3,
        setup_succeeds c ctx (fs s) inside false f3 ->
        child_succeeds h rev ctx f3 ->
        let f4 := snd (h_spawn h (lit "opencode") (Opencode.cliArgs ctx)
                         (Opencode.cliInput ctx (prompt ctx)) (stdio_of rev) f3) in
        let t := roundSeconds (h_now h (S (ticks s)) - h_now h (ticks s)) in
        exists evs f5,
          run h c rev s
          = (Exit 0,
             {| fs := f5; trace := trace s ++ bannerLogs ctx ++ evs;
                ticks := S (S (ticks s)) |})
          /\ In noKeyWarning evs
          /\ List.filter io evs
             = successIo h rev ctx inside f4 (totalCostOn h f4) t).
Proof.
  intros Hctx. split.
  - intros msg Hcfg Hpost Hout.
    exists (bannerLogs ctx ++ [EvValidateConfig] ++ failureEvents msg).
    split; [now apply run_config_failure|]. split; reflexivity.
  - intros inside f3 Hsetup Hchild f4 t.
    destruct (run_success h c rev ctx s inside false f3 Hctx Hsetup Hchild)
      as (evs & f5 & Hrun & Hio & Hwarn).
    exists evs, f5. auto.
Qed.

Lemma config_error_witness :
  let ctx := Sample.context "7" "main" "p/m" in
  let h := Sample.child_host (Some 0) (Some (lit "done")) None in
  let c := Sample.collab ctx (Some (lit "Missing GITLAB_TOKEN")) true in
  exists evs,
    run h c Capturing (Sample.start ∅)
    = (Exit 1, {| fs := ∅; trace := [] ++ evs; ticks := 1 |})
    /\ List.filter io evs
       = [EvValidateConfig;
          EvPostComment (errorComment (lit "Missing GITLAB_TOKEN"));
          EvWriteOutput false (OutFailure (lit "Missing GITLAB_TOKEN"));
          EvExit 1]
    /\ existsb session_request evs = false.
Proof.
  intros ctx h c.
  refine (proj1 (config_error_fails_fast_missing_key_warns h c Capturing ctx
                   (Sample.start ∅) _) (lit "Missing GITLAB_TOKEN") _ _ _);
    reflexivity.
Defined.

(** C2, counterexample: with no provider key ([validateProviderKeys]
    answers false) and nothing else failing, the run ends with exit status 0,
    having warned, started the agent and posted the telemetry; the record it
    writes is the success record. *)
Lemma missing_provider_key_run_succeeds :
  let ctx := Sample.context "7" "main" "p/m" in
  let h := Sample.child_host (Some 0) (Some (lit "done")) None in
  let c := Sample.collab ctx None false in
  let s := Sample.start ∅ in
  c_validateProviderKeys c = inr false
  /\ fst (run h c Capturing s) = Exit 0
  /\ In noKeyWarning (trace (snd (run h c Capturing s)))
  /\ List.filter io (trace (snd (run h c Capturing s)))
     = [EvValidateConfig; EvGitSetup; EvEnsureBranch;
        EvSpawn (lit "opencode") (Opencode.cliArgs ctx)
          (Opencode.cliInput ctx (prompt ctx)) Piped;
        EvExec (sessionIdCmd h);
        EvFetch (telemetryRequest ctx 0%float 1);
        EvWriteOutput true (OutSuccess (prompt ctx) (branch ctx) 0%float 1);
        EvExit 0].
Proof.
  vm_compute. repeat split.
  do 8 right. left. reflexivity.
Qed.

End OrchestratorClaims.

(** ** The cost of a run *)

Section Cost.
Import Runner.

Lemma add_from_costs (costs : list (option float)) (acc : option float) :
  Jq.add_from (Jq.cost_value acc) (List.map Jq.cost_value costs)
  = inr (Jq.sum_json (omap id (acc :: costs))).
Proof.
  revert acc. induction costs as [|o r IH]; intros acc.
  - destruct acc; reflexivity.
  - destruct acc as [a|], o as [b|]; cbn [List.map Jq.add_from Jq.plus Jq.cost_value].
    + exact (IH (Some (a + b)%float)).
    + exact (IH (Some a)).
    + exact (IH (Some b)).
    + exact (IH None).
Qed.

Lemma slurp_costs files costs :
  Forall2 Jq.has_cost files costs ->
  exists vs, Jq.slurp files = inr vs
             /\ Jq.map_cost vs = inr (List.map Jq.cost_value costs).
Proof.
  induction 1 as [|file o files costs (v & -> & Hv) _ (vs & Hs & Hm)].
  - exists []. split; reflexivity.
  - exists (v :: vs). simpl. rewrite Hs, Hv, Hm. split; reflexivity.
Qed.

(** On readable records whose costs are numbers, null or missing, jq prints
    the sum of the numbers. *)
Lemma exec_costs print files costs :
  files <> [] -> Forall2 Jq.has_cost files costs ->
  Jq.exec print files = inr (print (Jq.sum_json (omap id costs)) ++ [newline]).
Proof.
  intros Hne Hall. destruct (slurp_costs files costs Hall) as (vs & Hs & Hm).
  unfold Jq.exec, Jq.program. destruct files as [|file files]; [congruence|].
  rewrite Hs, Hm. change Jq.JNull with (Jq.cost_value None).
  rewrite add_from_costs. reflexivity.
Qed.

(** One unreadable record makes jq fail. *)
Lemma exec_unreadable print files :
  In None files -> exists e, Jq.exec print files = inl e.
Proof.
  intros Hin.
  assert (Hs : exists e, Jq.slurp files = inl e).
  { induction files as [|[v|] files IH]; simpl in *.
    - contradiction.
    - destruct Hin as [Hin|Hin]; [discriminate|].
      destruct (IH Hin) as [e ->]. eauto.
    - eauto. }
  destruct Hs as [e Hs]. unfold Jq.exec.
  destruct files; [contradiction|]. rewrite Hs. eauto.
Qed.

Lemma totalCostOn_jq h f out f1 print files :
  h_exec h (sessionIdCmd h) f = (inr out, f1) ->
  fst (h_exec h (costCmd h (trim out)) f1) = Jq.exec print files ->
  totalCostOn h f
  = match Jq.exec print files with
    | inl _ => 0%float
    | inr text => or_zero (h_parseFloat h (trim text))
    end.
Proof.
  intros H1 H2. unfold totalCostOn. rewrite H1.
  destruct (h_exec h (costCmd h (trim out)) f1) as [r f2]. simpl in H2.
  rewrite <- H2. destruct r; reflexivity.
Qed.

Lemma float_neq (x y : float) : Prim2SF x <> Prim2SF y -> x <> y.
Proof. intros H ->. now apply H. Qed.

(** C8 (as the code has it). The cost step never aborts the run: whatever
    the two shell commands do it returns a number, and a run on which nothing
    else fails goes on to write the success record with it and exits 0. The
    number is 0 when the listing or the jq command fails, and otherwise what
    [parseFloat] reads in jq's trimmed output, or 0 if that is NaN or zero.
    The jq program adds the numeric cost fields in file order and skips null
    and missing ones; a record file that cannot be read makes jq fail, and so
    does any other failure of the program, and then the total is 0, not the
    sum of the other records. For costs 0.1, null, 0.2 jq's sum is the
    binary64 sum of 0.1 and 0.2, which is 0.30000000000000004. *)
Theorem cost_is_jq_sum_or_zero (h : Host) (t : Z) (s : State) :
  (exists evs f',
      computeCost h t s
      = (Ret (totalCostOn h (fs s)),
         {| fs := f'; trace := trace s ++ evs; ticks := ticks s |})
      /\ List.filter io evs = costCommands h (fs s))
  /\ (forall e f1, h_exec h (sessionIdCmd h) (fs s) = (inl e, f1) ->
        totalCostOn h (fs s) = 0%float)
  /\ (forall out f1 print files,
        h_exec h (sessionIdCmd h) (fs s) = (inr out, f1) ->
        fst (h_exec h (costCmd h (trim out)) f1) = Jq.exec print files ->
        (In None files -> totalCostOn h (fs s) = 0%float)
        /\ (forall e, Jq.exec print files = inl e -> totalCostOn h (fs s) = 0%float)
        /\ (forall costs, files <> [] -> Forall2 Jq.has_cost files costs ->
              totalCostOn h (fs s)
              = or_zero (h_parseFloat h
                           (trim (print (Jq.sum_json (omap id costs)) ++ [newline])))))
  /\ (forall print,
        Jq.exec print [Jq.record (Jq.JNum 0.1); Jq.record Jq.JNull;
                       Jq.record (Jq.JNum 0.2)]
        = inr (print (Jq.JNum 0.30000000000000004) ++ [newline]))
  /\ (forall c rev ctx inside keys f3,
        c_buildContext c = inr ctx ->
        setup_succeeds c ctx (fs s) inside keys f3 ->
        child_succeeds h rev ctx f3 ->
        let f4 := snd (h_spawn h (lit "opencode") (Opencode.cliArgs ctx)
                         (Opencode.cliInput ctx (prompt ctx)) (stdio_of rev) f3) in
        let t' := roundSeconds (h_now h (S (ticks s)) - h_now h (ticks s)) in
        exists evs f5,
          run h c rev s
          = (Exit 0,
             {| fs := f5; trace := trace s ++ bannerLogs ctx ++ evs;
                ticks := S (S (ticks s)) |})
          /\ In (EvWriteOutput true
                   (OutSuccess (prompt ctx) (branch ctx) (totalCostOn h f4) t'))
                evs).
Proof.
  split; [apply computeCost_total|]. split; [|split; [|split]].
  - intros e f1 H. unfold totalCostOn. now rewrite H.
  - intros out f1 print files H1 H2.
    pose proof (totalCostOn_jq h (fs s) out f1 print files H1 H2) as E.
    split; [|split].
    + intros Hin. destruct (exec_unreadable print files Hin) as [e He].
      now rewrite E, He.
    + intros e He. now rewrite E, He.
    + intros costs Hne Hall. now rewrite E, (exec_costs print files costs Hne Hall).
  - intros print. vm_compute. reflexivity.
  - intros c rev ctx inside keys f3 Hctx Hsetup Hchild f4 t'.
    destruct (run_success h c rev ctx s inside keys f3 Hctx Hsetup Hchild)
      as (evs & f5 & Hrun & Hio & _).
    exists evs, f5. split; [exact Hrun|].
    assert (Hin : In (EvWriteOutput true
                        (OutSuccess (prompt ctx) (branch ctx) (totalCostOn h f4) t'))
                     (List.filter io evs)).
    { rewrite Hio. unfold successIo. apply in_or_app. right.
      apply in_or_app. right. right. left. reflexivity. }
    apply filter_In in Hin. tauto.
Qed.

Lemma cost_is_jq_sum_or_zero_witness :
  let files := [Jq.record (Jq.JNum 0.1); Jq.record Jq.JNull;
                Jq.record (Jq.JNum 0.2)] in
  totalCostOn (Sample.cost_host files) ∅ = 0.30000000000000004%float.
Proof.
  intros files.
  pose proof (cost_is_jq_sum_or_zero (Sample.cost_host files) 1 (Sample.start ∅))
    as (_ & _ & H & _).
  destruct (H (lit "ses_1" ++ [newline]) ∅ Sample.print_json files
              eq_refl eq_refl) as (_ & _ & Hsum).
  etransitivity;
    [exact (Hsum [Some 0.1%float; None; Some 0.2%float]
              ltac:(discriminate)
              ltac:(repeat constructor; eexists; (split; [reflexivity|]);
                    reflexivity))|].
  vm_compute. reflexivity.
Defined.

(** C8, counterexample: of three records with costs 0.1, "n/a" and 0.2 the
    design document's sum, with the unparsable cost counted as 0, is
    0.30000000000000004; jq fails on them and the run's total is 0. *)
Lemma unparsable_cost_zeroes_the_total :
  let files := [Jq.record (Jq.JNum 0.1); Jq.record (Jq.JStr (lit "n/a"));
                Jq.record (Jq.JNum 0.2)] in
  let h := Sample.cost_host files in
  Design.costSum files = 0.30000000000000004%float
  /\ fst (computeCost h 1 (Sample.start ∅)) = Ret 0%float
  /\ fst (computeCost h 1 (Sample.start ∅)) <> Ret (Design.costSum files).
Proof.
  intros files h. split; [vm_compute; reflexivity|].
  split; [vm_compute; reflexivity|].
  intros H.
  assert (E : fst (computeCost h 1 (Sample.start ∅)) = Ret 0%float)
    by (vm_compute; reflexivity).
  rewrite E in H.
  apply (f_equal (fun o => match o with Ret x => x | _ => 0%float end)) in H.
  revert H. apply float_neq. vm_compute. discriminate.
Qed.

End Cost.

(* ===================================================================== *)
(** * Further properties of the three modules *)
(* ===================================================================== *)

(** ** Trimming *)

Section TrimFacts.

Lemma trimStart_idem s : trimStart (trimStart s) = trimStart s.
Proof.
  induction s as [|c r IH]; [reflexivity|].
  simpl. destruct (is_ws c) eqn:E; [exact IH|]. simpl. now rewrite E.
Qed.

Lemma trimEnd_idem s : trimEnd (trimEnd s) = trimEnd s.
Proof. unfold trimEnd. now rewrite rev_involutive, trimStart_idem. Qed.

(** What [trimStart] leaves is empty or starts with a character that is not
    white space. *)
Lemma trimStart_head s :
  trimStart s = [] \/ exists x r, trimStart s = x :: r /\ is_ws x = false.
Proof.
  induction s as [|c r IH]; [now left|].
  simpl. destruct (is_ws c) eqn:E; [exact IH|]. right. eauto.
Qed.

Lemma trimEnd_head x r :
  is_ws x = false -> exists t, trimEnd (x :: r) = x :: t.
Proof.
  intros Hx. unfold trimEnd. simpl rev.
  rewrite trimStart_snoc by assumption.
  rewrite rev_app_distr. simpl. eauto.
Qed.

Lemma trimStart_trim s : trimStart (trim s) = trim s.
Proof.
  unfold trim. destruct (trimStart_head s) as [->|(x & r & -> & Hx)].
  - reflexivity.
  - destruct (trimEnd_head x r Hx) as [t ->]. simpl. now rewrite Hx.
Qed.

(** Trimming twice is trimming once. *)
Lemma trim_idem s : trim (trim s) = trim s.
Proof.
  unfold trim at 1. rewrite trimStart_trim. unfold trim. apply trimEnd_idem.
Qed.

Lemma trimStart_nonempty s :
  trimStart s <> [] <-> exists c, In c s /\ is_ws c = false.
Proof.
  induction s as [|c r IH]; simpl.
  - split; [congruence | intros (c & [] & _)].
  - destruct (is_ws c) eqn:E.
    + rewrite IH. split.
      * intros (d & Hd & Hw). eauto.
      * intros (d & [->|Hd] & Hw); [congruence | eauto].
    + split; [eauto | discriminate].
Qed.

(** The trimmed text is non-empty exactly when the string holds a character
    that is not white space. *)
Lemma trim_nonempty s :
  trim s <> [] <-> exists c, In c s /\ is_ws c = false.
Proof.
  rewrite <- trimStart_nonempty. unfold trim.
  destruct (trimStart_head s) as [E|(x & r & E & Hx)]; rewrite E.
  - split; intros H; exfalso; apply H; reflexivity.
  - destruct (trimEnd_head x r Hx) as [t ->]. split; discriminate.
Qed.

End TrimFacts.

(** ** More on the session store *)

Section SessionStoreMore.
Import Session.

(** [getLatestSessionId] never throws. Without the message directory it
    answers [null] and runs no command. An identifier it answers is the
    trimmed output of the listing command, so it is never the empty string
    and carries no white space at either end. *)
Theorem getLatestSessionId_result (h : Host) (s : State) :
  exists r evs f',
    getLatestSessionId h s
    = (Ret r, {| fs := f'; trace := trace s ++ evs; ticks := ticks s |})
    /\ (fs s !! messagesDir h = None -> r = None /\ evs = [] /\ f' = fs s)
    /\ (forall id, r = Some id ->
          id <> [] /\ trim id = id
          /\ exists out, h_exec h (latestCmd h) (fs s) = (inr out, f')
                         /\ id = trim out).
Proof.
  unfold getLatestSessionId. run_step.
  destruct (fs s !! messagesDir h) as [n|] eqn:E.
  - rewrite bool_decide_eq_true_2 by eauto. simpl.
    destruct (h_exec h (latestCmd h) (fs s)) as [[e|out] f1]; simpl.
    + eexists None, _, f1. split; [rewrite <- app_assoc; reflexivity|].
      split; [discriminate | discriminate].
    + destruct (trim out) as [|x r] eqn:Et; simpl.
      * eexists None, _, f1. split; [reflexivity|].
        split; [discriminate | discriminate].
      * eexists (Some (x :: r)), _, f1. split; [reflexivity|].
        split; [discriminate|]. intros id [= <-].
        split; [discriminate|]. split; [rewrite <- Et; apply trim_idem|].
        exists out. auto.
  - rewrite bool_decide_eq_false_2 by (intros [x Hx]; discriminate). simpl.
    exists None, [], (fs s). rewrite app_nil_r. destruct s. simpl.
    split; [reflexivity|]. split; [auto | discriminate].
Qed.

(** [zipSession] never throws. It answers [null] or the fixed scratch path,
    and the scratch path only when the state directory was there and the zip
    command has been run. *)
Theorem zipSession_result (h : Host) (s : State) :
  exists r evs f',
    zipSession h s
    = (Ret r, {| fs := f'; trace := trace s ++ evs; ticks := ticks s |})
    /\ (r = None
        \/ (r = Some SESSION_ZIP_PATH
            /\ is_Some (fs s !! OPENCODE_DIR h)
            /\ In (EvExec (zipCmd h)) evs)).
Proof.
  unfold zipSession. run_step.
  destruct (fs s !! OPENCODE_DIR h) as [n|] eqn:E.
  - rewrite bool_decide_eq_true_2 by eauto. simpl.
    destruct (bool_decide (is_Some (fs s !! SESSION_ZIP_PATH))); simpl.
    + destruct (h_rm h SESSION_ZIP_PATH (fs s)) as [[e|] f1]; simpl.
      * eexists None, _, _. split; [rewrite <- !app_assoc; reflexivity | now left].
      * destruct (h_exec h (zipCmd h) f1) as [[e|out] f2]; simpl.
        -- eexists None, _, _. split; [rewrite <- !app_assoc; reflexivity | now left].
        -- eexists (Some _), _, _. split; [rewrite <- !app_assoc; reflexivity|].
           right. split; [reflexivity|]. split; [eauto|]. simpl. tauto.
    + destruct (h_exec h (zipCmd h) (fs s)) as [[e|out] f2]; simpl.
      * eexists None, _, _. split; [rewrite <- !app_assoc; reflexivity | now left].
      * eexists (Some _), _, _. split; [rewrite <- !app_assoc; reflexivity|].
        right. split; [reflexivity|]. split; [eauto|]. simpl. tauto.
  - rewrite bool_decide_eq_false_2 by (intros [x Hx]; discriminate). simpl.
    eexists None, _, _. split; [reflexivity | now left].
Qed.

(** With the state directory and a stale archive both present, [zipSession]
    removes the stale archive before it runs the zip command; when the
    removal fails the zip command is not run and the answer is [null]. *)
Theorem zipSession_removes_stale_archive_first (h : Host) (s : State) :
  is_Some (fs s !! OPENCODE_DIR h) ->
  is_Some (fs s !! SESSION_ZIP_PATH) ->
  let zipping := EvLog LInfo [PStr (lit "Zipping opencode session...")] in
  (forall e f1, h_rm h SESSION_ZIP_PATH (fs s) = (Some e, f1) ->
     zipSession h s
     = (Ret None,
        {| fs := f1;
           trace := trace s ++ [zipping; EvRm SESSION_ZIP_PATH;
                                EvLog LError [PStr (lit "Failed to zip session: " ++ e)]];
           ticks := ticks s |}))
  /\ (forall f1, h_rm h SESSION_ZIP_PATH (fs s) = (None, f1) ->
      exists r evs,
        zipSession h s
        = (Ret r,
           {| fs := snd (h_exec h (zipCmd h) f1);
              trace := trace s ++ [zipping; EvRm SESSION_ZIP_PATH; EvExec (zipCmd h)] ++ evs;
              ticks := ticks s |})
        /\ (r = Some SESSION_ZIP_PATH
            <-> exists out, fst (h_exec h (zipCmd h) f1) = inr out)).
Proof.
  intros Hdir Hzip zipping. split.
  - intros e f1 Hrm. unfold zipSession. run_step.
    rewrite (bool_decide_eq_true_2 _ Hdir). simpl.
    rewrite (bool_decide_eq_true_2 _ Hzip). simpl.
    rewrite Hrm. simpl. now rewrite <- !app_assoc.
  - intros f1 Hrm. unfold zipSession. run_step.
    rewrite (bool_decide_eq_true_2 _ Hdir). simpl.
    rewrite (bool_decide_eq_true_2 _ Hzip). simpl.
    rewrite Hrm. simpl.
    destruct (h_exec h (zipCmd h) f1) as [[e|out] f2]; simpl.
    + eexists None, _. split; [rewrite <- !app_assoc; reflexivity|].
      split; [discriminate | intros [out [=]]].
    + eexists (Some _), _. split; [rewrite <- !app_assoc; reflexivity|].
      split; eauto.
Qed.

Lemma zipSession_removes_stale_archive_first_witness :
  let h := Sample.store_host Sample.zipping_shell Sample.no_net in
  let s := Sample.start (<[SESSION_ZIP_PATH := File [1%N]]> Sample.state_dir) in
  exists r evs,
    zipSession h s
    = (Ret r,
       {| fs := <[SESSION_ZIP_PATH := File [80; 75]%N]>
                  (delete SESSION_ZIP_PATH (fs s));
          trace := [] ++ [EvLog LInfo [PStr (lit "Zipping opencode session...")];
                          EvRm SESSION_ZIP_PATH; EvExec (zipCmd h)] ++ evs;
          ticks := 0 |})
    /\ (r = Some SESSION_ZIP_PATH
        <-> exists out, fst (h_exec h (zipCmd h) (delete SESSION_ZIP_PATH (fs s)))
                        = inr out).
Proof.
  intros h s.
  refine (proj2 (zipSession_removes_stale_archive_first h s _ _)
            (delete SESSION_ZIP_PATH (fs s)) eq_refl).
  - vm_compute. eauto.
  - vm_compute. eauto.
Defined.

Lemma getLatestSessionId_shape h s :
  exists r s', getLatestSessionId h s = (Ret r, s')
               /\ (forall id, r = Some id -> id <> [] /\ trim id = id).
Proof.
  unfold getLatestSessionId. run_step.
  destruct (bool_decide (is_Some (fs s !! messagesDir h))); simpl.
  - destruct (h_exec h (latestCmd h) (fs s)) as [[e|out] f1]; simpl.
    + eexists None, _. split; [reflexivity | discriminate].
    + destruct (trim out) as [|x r] eqn:Et; simpl.
      * eexists None, _. split; [reflexivity | discriminate].
      * eexists (Some _), _. split; [reflexivity|]. intros id [= <-].
        split; [discriminate | rewrite <- Et; apply trim_idem].
  - eexists None, _. split; [reflexivity | discriminate].
Qed.

(** An identifier [unzipSession] answers is never the empty string. *)
Lemma unzipSession_shape h zipPath s :
  exists r s', unzipSession h zipPath s = (Ret r, s')
               /\ (forall id, r = Some id -> id <> [] /\ trim id = id).
Proof.
  unfold unzipSession. run_step.
  destruct (bool_decide (is_Some (fs s !! zipPath))); simpl.
  - repeat match goal with
           | |- context [h_mkdir ?a ?b ?c] => destruct (h_mkdir a b c) as [[?|] ?]; simpl
           | |- context [h_exec ?a ?b ?c] => destruct (h_exec a b c) as [[?|?] ?]; simpl
           | |- context [bool_decide ?P] => destruct (bool_decide P); simpl
           end;
    try (eexists None, _; split; [reflexivity | discriminate]);
    match goal with
    | |- context [getLatestSessionId h ?st] =>
        destruct (getLatestSessionId_shape h st) as (r & s2 & Hl & Hr);
        rewrite Hl; destruct r as [id|]; simpl;
        eexists _, _; (split; [reflexivity|]); try discriminate;
        intros id' [= <-]; now apply Hr
    end.
  - eexists None, _. split; [reflexivity | discriminate].
Qed.

(** A download that finds no session ends softly: when the request is
    rejected, when the store answers 404 and when it answers any other status
    outside 200-299, [downloadSession] returns [false] after one log line,
    writes no file, runs no command and leaves the file system as it was. *)
Theorem downloadSession_soft_failure (h : Host) (ctx : Context) (s : State)
  (enc : jsstring) :
  h_encodeURIComponent h (getSessionId ctx) = inr enc ->
  let rq := downloadRequest ctx (sessionUrl ctx enc) in
  let asking :=
    EvLog LInfo [PStr (lit "Downloading session from API: " ++ getSessionId ctx)] in
  (forall e, h_fetch h rq = inl e ->
     downloadSession h ctx s
     = (Ret (VBool false),
        record_events s
          [asking; EvFetch rq;
           EvLog LWarn [PStr (lit "Could not download session: " ++ e)]]))
  /\ (forall resp, h_fetch h rq = inr resp -> rs_status resp = 404 ->
      downloadSession h ctx s
      = (Ret (VBool false),
         record_events s
           [asking; EvFetch rq;
            EvLog LInfo [PStr (lit "No previous session found, starting fresh")]]))
  /\ (forall resp, h_fetch h rq = inr resp -> rs_status resp <> 404 ->
      rs_ok resp = false ->
      downloadSession h ctx s
      = (Ret (VBool false),
         record_events s
           [asking; EvFetch rq;
            EvLog LWarn [PStr (lit "Failed to download session: ");
                         PInt (rs_status resp)]])).
Proof.
  intros Henc rq asking. unfold record_events.
  split; [|split].
  - intros e Hf. unfold downloadSession. run_step. rewrite Henc. simpl.
    fold rq. rewrite Hf. simpl. now rewrite <- !app_assoc.
  - intros resp Hf H404. unfold downloadSession. run_step. rewrite Henc. simpl.
    fold rq. rewrite Hf. simpl. rewrite H404. simpl. now rewrite <- !app_assoc.
  - intros resp Hf H404 Hok. unfold downloadSession. run_step. rewrite Henc.
    simpl. fold rq. rewrite Hf. simpl.
    rewrite (proj2 (Z.eqb_neq _ _) H404), Hok. simpl. now rewrite <- !app_assoc.
Qed.

Lemma downloadSession_soft_failure_witness :
  let h := Sample.store_host Sample.restoring_shell Sample.store_lacks in
  let ctx := Sample.context "7" "main" "p/m" in
  let s := Sample.start Sample.state_dir in
  fs (snd (downloadSession h ctx s)) = Sample.state_dir
  /\ fst (downloadSession h ctx s) = Ret (VBool false).
Proof.
  intros h ctx s.
  pose proof (downloadSession_soft_failure h ctx s (getSessionId ctx) eq_refl)
    as (_ & H & _).
  rewrite (H Sample.not_found eq_refl eq_refl). split; reflexivity.
Defined.

(** [downloadSession] never throws, whatever the store, the file system and
    the shell do; it returns [false], [null] or a conversation id, and that id
    is never the empty string: never [true]. *)
Theorem downloadSession_never_throws (h : Host) (ctx : Context) (s : State) :
  exists v s',
    downloadSession h ctx s = (Ret v, s')
    /\ (v = VBool false \/ v = VNull
        \/ exists id, v = VStr id /\ id <> [] /\ trim id = id).
Proof.
  unfold downloadSession. run_step.
  destruct (h_encodeURIComponent h (getSessionId ctx)) as [e|enc]; simpl;
    [eexists _, _; split; [reflexivity | now left]|].
  destruct (h_fetch h _) as [e|resp]; simpl;
    [eexists _, _; split; [reflexivity | now left]|].
  destruct (rs_status resp =? 404); simpl;
    [eexists _, _; split; [reflexivity | now left]|].
  destruct (rs_ok resp); simpl;
    [|eexists _, _; split; [reflexivity | now left]].
  destruct (rs_arrayBuffer resp) as [e|buf]; simpl;
    [eexists _, _; split; [reflexivity | now left]|].
  destruct (h_writeFile h SESSION_ZIP_PATH buf (fs s)) as [[e|] f1]; simpl;
    [eexists _, _; split; [reflexivity | now left]|].
  match goal with
  | |- context [unzipSession h ?z ?st] =>
      destruct (unzipSession_shape h z st) as (r & s2 & Hu & Hr)
  end.
  rewrite Hu. destruct r as [id|]; simpl.
  - eexists _, _. split; [reflexivity|]. right. right.
    exists id. split; [reflexivity|]. now apply Hr.
  - eexists _, _. split; [reflexivity|]. right. now left.
Qed.

(** With no state directory there is nothing to upload: [uploadSession]
    returns [false] after two warnings, without reading a file, running a
    command or sending a request. *)
Theorem uploadSession_nothing_to_upload (h : Host) (ctx : Context) (s : State) :
  fs s !! OPENCODE_DIR h = None ->
  uploadSession h ctx s
  = (Ret false,
     record_events s
       [EvLog LWarn [PStr (lit "Opencode directory does not exist, nothing to zip")];
        EvLog LWarn [PStr (lit "No session to upload")]]).
Proof.
  intros Hdir. unfold uploadSession, zipSession, record_events. run_step.
  rewrite Hdir.
  rewrite bool_decide_eq_false_2 by (intros [x Hx]; discriminate).
  simpl. now rewrite <- !app_assoc.
Qed.

Lemma uploadSession_nothing_to_upload_witness :
  fst (uploadSession (Sample.store_host Sample.zipping_shell (Sample.store_has []))
         (Sample.context "7" "main" "p/m") (Sample.start ∅))
  = Ret false.
Proof.
  assert (H : fs (Sample.start ∅)
              !! OPENCODE_DIR (Sample.store_host Sample.zipping_shell
                                 (Sample.store_has [])) = None)
    by (vm_compute; reflexivity).
  rewrite (uploadSession_nothing_to_upload _ (Sample.context "7" "main" "p/m")
             _ H).
  reflexivity.
Defined.




End SessionStoreMore.

(** ** More on the invocation *)

Section InvocationMore.
Import Opencode.

(** The capturing revision copies the child's output and error streams to
    the parent's right after the child ends and before it looks at the exit
    status, so also when the invocation then fails; everything else it adds
    is log lines. The inheriting revision writes to neither stream itself.
    In both the file system changes through the child only. *)
Theorem runOpencode_mirrors_streams (h : Host) (ctx : Context)
  (p : option jsstring) (s : State) :
  invalidModel (opencodeModel ctx) = false ->
  (forall r f',
      h_spawn h (lit "opencode") (cliArgs ctx) (cliInput ctx p) Piped (fs s) = (r, f') ->
      exists o rest,
        runOpencode h ctx p s
        = (o, {| fs := f';
                 trace := trace s ++ launchLogs ctx
                          ++ [EvSpawn (lit "opencode") (cliArgs ctx) (cliInput ctx p) Piped]
                          ++ mirrored r ++ rest;
                 ticks := ticks s |})
        /\ forallb is_log rest = true)
  /\ (forall r f',
        h_spawn h (lit "opencode") (cliArgs ctx) (cliInput ctx p) Inherited (fs s) = (r, f') ->
        exists o rest,
          runOpencode_inherit h ctx p s
          = (o, {| fs := f';
                   trace := trace s ++ launchLogs ctx
                            ++ [EvSpawn (lit "opencode") (cliArgs ctx) (cliInput ctx p) Inherited]
                            ++ rest;
                   ticks := ticks s |})
          /\ forallb is_log rest = true).
Proof.
  intros Hvalid. split.
  - intros r f' Hspawn. unfold runOpencode, mbind, M_bind at 1.
    rewrite (launch_valid h ctx p Piped s Hvalid), Hspawn.
    unfold checkStatus, mirrored. run_step.
    destruct (truthy (or_else (sp_stdout r) []));
      destruct (truthy (or_else (sp_stderr r) []));
      destruct (bool_decide (sp_status r = Some 0)); simpl;
      eexists _, _; (split; [rewrite <- ?app_assoc; simpl; reflexivity|]);
      reflexivity.
  - intros r f' Hspawn. unfold runOpencode_inherit, mbind, M_bind at 1.
    rewrite (launch_valid h ctx p Inherited s Hvalid), Hspawn.
    unfold checkStatus. run_step.
    destruct (bool_decide (sp_status r = Some 0)); simpl;
      eexists _, _; (split; [rewrite <- ?app_assoc; simpl; reflexivity|]);
      reflexivity.
Qed.

Lemma runOpencode_mirrors_streams_witness :
  let h := Sample.child_host (Some 1) (Some (lit "partial")) (Some (lit "boom")) in
  let ctx := Sample.context "7" "main" "p/m" in
  exists o rest,
    runOpencode h ctx None (Sample.start ∅)
    = (o, {| fs := ∅;
             trace := [] ++ launchLogs ctx
                      ++ [EvSpawn (lit "opencode") (cliArgs ctx) (cliInput ctx None) Piped]
                      ++ [EvStdout (lit "partial"); EvStderr (lit "boom")] ++ rest;
             ticks := 0 |})
    /\ forallb is_log rest = true.
Proof.
  intros h ctx.
  exact (proj1 (runOpencode_mirrors_streams h ctx None (Sample.start ∅) eq_refl)
           {| sp_status := Some 1; sp_stdout := Some (lit "partial");
              sp_stderr := Some (lit "boom") |} ∅ eq_refl).
Defined.

(** One invocation starts at most one child and does nothing else to the
    outside: none for a specifier the guard refuses, exactly one otherwise,
    also when the child fails (there is no second try). It returns normally
    exactly when the guard passes and the child's exit status is zero. *)
Theorem invoke_starts_one_child_at_most (h : Host) (rev : Runner.Revision)
  (ctx : Context) (p : option jsstring) (s : State) :
  exists o evs f',
    Runner.invoke h rev ctx p s
    = (o, {| fs := f'; trace := trace s ++ evs; ticks := ticks s |})
    /\ List.filter Runner.io evs
       = (if invalidModel (opencodeModel ctx) then []
          else [EvSpawn (lit "opencode") (cliArgs ctx) (cliInput ctx p)
                  (Runner.stdio_of rev)])
    /\ (o = Ret tt
        <-> invalidModel (opencodeModel ctx) = false
            /\ sp_status (fst (h_spawn h (lit "opencode") (cliArgs ctx)
                                 (cliInput ctx p) (Runner.stdio_of rev) (fs s)))
               = Some 0).
Proof.
  unfold Runner.invoke.
  destruct (invalidModel (opencodeModel ctx)) eqn:Hvalid.
  - destruct rev.
    + unfold mbind, M_bind. rewrite (runOpencode_invalid h ctx p s Hvalid).
      eexists _, _, _. split; [reflexivity|]. split; [reflexivity|].
      split; [discriminate | intros [? _]; discriminate].
    + rewrite (runOpencode_inherit_invalid h ctx p s Hvalid).
      eexists _, _, _. split; [reflexivity|]. split; [reflexivity|].
      split; [discriminate | intros [? _]; discriminate].
  - destruct rev; simpl Runner.stdio_of.
    + unfold runOpencode, mbind, M_bind at 1 2.
      rewrite (launch_valid h ctx p Piped s Hvalid).
      destruct (h_spawn _ _ _ _ _ _) as [r f']. unfold checkStatus. run_step.
      destruct (truthy (or_else (sp_stdout r) []));
        destruct (truthy (or_else (sp_stderr r) []));
        destruct (bool_decide (sp_status r = Some 0)) eqn:Hst; simpl;
        eexists _, _, _; (split; [rewrite <- ?app_assoc; simpl; reflexivity|]);
        (split; [reflexivity|]);
        first [ apply bool_decide_eq_true in Hst; tauto
              | apply bool_decide_eq_false in Hst;
                split; [discriminate | tauto] ].
    + unfold runOpencode_inherit, mbind, M_bind at 1.
      rewrite (launch_valid h ctx p Inherited s Hvalid).
      destruct (h_spawn _ _ _ _ _ _) as [r f']. unfold checkStatus. run_step.
      destruct (bool_decide (sp_status r = Some 0)) eqn:Hst; simpl;
        eexists _, _, _; (split; [rewrite <- ?app_assoc; simpl; reflexivity|]);
        (split; [reflexivity|]);
        first [ apply bool_decide_eq_true in Hst; tauto
              | apply bool_decide_eq_false in Hst;
                split; [discriminate | tauto] ].
Qed.

Lemma In_join sep (l : jsstring) ls c :
  In l ls -> In c l -> In c (join sep ls).
Proof.
  induction ls as [|x ls IH]; [intros []|].
  intros [->|Hin] Hc.
  - destruct ls; [exact Hc|]. rewrite join_cons by discriminate.
    apply in_or_app. now left.
  - destruct ls as [|y ls]; [destruct Hin|].
    rewrite join_cons by discriminate.
    apply in_or_app. right. apply in_or_app. right. now apply IH.
Qed.

Lemma In_lastn {A} k (l : list A) x : In x (lastn k l) -> In x l.
Proof.
  unfold lastn. intros H. apply list_elem_of_In in H. apply list_elem_of_In.
  eapply subseteq_drop; eauto.
Qed.

(** When some line qualifies, [finalResponse] is not empty and carries no
    white space at either end; and in every case it is empty only for an
    empty [fullOutput]. *)
Theorem finalResponse_nonempty_and_trimmed (fullOutput : jsstring) :
  (List.filter qualifies (split_on newline fullOutput) <> [] ->
   extractFinalResponse fullOutput <> []
   /\ trim (extractFinalResponse fullOutput) = extractFinalResponse fullOutput)
  /\ (extractFinalResponse fullOutput = [] <-> fullOutput = []).
Proof.
  assert (Hkept : List.filter qualifies (split_on newline fullOutput) <> [] ->
                  extractFinalResponse fullOutput <> []
                  /\ trim (extractFinalResponse fullOutput)
                     = extractFinalResponse fullOutput).
  { intros Hne. rewrite extractFinalResponse_spec.
    destruct (List.filter qualifies (split_on newline fullOutput))
      as [|y kept] eqn:E; [congruence|].
    split; [|apply trim_idem].
    apply trim_nonempty.
    assert (Hlen : (0 < length (lastn 50 (y :: kept)))%nat)
      by (rewrite lastn_length; simpl; lia).
    destruct (lastn 50 (y :: kept)) as [|l ls] eqn:El; [simpl in Hlen; lia|].
    assert (Hl : In l (y :: kept))
      by (apply (In_lastn 50); rewrite El; now left).
    rewrite <- E in Hl. apply filter_In in Hl as [_ Hq].
    unfold qualifies, keepLine in Hq.
    assert (Ht : trim l <> []) by (destruct (trim l); [discriminate | discriminate]).
    apply trim_nonempty in Ht as (c & Hc & Hw).
    exists c. split; [|exact Hw].
    apply (In_join _ l); [now left | exact Hc]. }
  split; [exact Hkept|]. split.
  - intros Hempty.
    destruct (List.filter qualifies (split_on newline fullOutput)) as [|y kept] eqn:E.
    + rewrite extractFinalResponse_spec, E in Hempty. exact Hempty.
    + exfalso. apply Hkept; [discriminate | exact Hempty].
  - intros ->. reflexivity.
Qed.

Lemma finalResponse_nonempty_and_trimmed_witness :
  extractFinalResponse (lit "[INFO] start" ++ [newline] ++ lit "  the answer  ")
  <> [].
Proof.
  apply (proj1 (finalResponse_nonempty_and_trimmed
                  (lit "[INFO] start" ++ [newline] ++ lit "  the answer  "))).
  vm_compute. discriminate.
Defined.

End InvocationMore.

(** ** More on the orchestrator *)

Section OrchestratorMore.
Import Runner.

Lemma invoke_invalid h rev ctx p s :
  Opencode.invalidModel (opencodeModel ctx) = true ->
  invoke h rev ctx p s
  = (Throw (Opencode.invalidModelError (opencodeModel ctx)),
     {| fs := fs s; trace := trace s ++ [Opencode.startLog]; ticks := ticks s |}).
Proof.
  intros H. unfold invoke. destruct rev.
  - unfold mbind, M_bind. now rewrite (runOpencode_invalid h ctx p s H).
  - now rewrite (runOpencode_inherit_invalid h ctx p s H).
Qed.

Lemma invoke_failure h rev ctx p s :
  Opencode.invalidModel (opencodeModel ctx) = false ->
  sp_status (fst (h_spawn h (lit "opencode") (Opencode.cliArgs ctx)
                    (Opencode.cliInput ctx p) (stdio_of rev) (fs s))) <> Some 0 ->
  exists evs,
    invoke h rev ctx p s
    = (Throw (Opencode.cliFailedError
                (fst (h_spawn h (lit "opencode") (Opencode.cliArgs ctx)
                        (Opencode.cliInput ctx p) (stdio_of rev) (fs s)))),
       {| fs := snd (h_spawn h (lit "opencode") (Opencode.cliArgs ctx)
                       (Opencode.cliInput ctx p) (stdio_of rev) (fs s));
          trace := trace s ++ evs; ticks := ticks s |})
    /\ List.filter io evs
       = [EvSpawn (lit "opencode") (Opencode.cliArgs ctx)
            (Opencode.cliInput ctx p) (stdio_of rev)].
Proof.
  intros Hvalid Hst. unfold invoke.
  destruct rev; simpl stdio_of in *.
  - unfold Opencode.runOpencode, mbind, M_bind at 1 2.
    rewrite (launch_valid h ctx p Piped s Hvalid).
    destruct (h_spawn _ _ _ _ _ _) as [r f']. simpl in Hst.
    unfold Opencode.checkStatus. run_step.
    rewrite bool_decide_eq_false_2 by assumption.
    repeat case_match; simplify_eq/=;
      eexists; (split; [rewrite <- ?app_assoc; reflexivity | reflexivity]).
  - unfold Opencode.runOpencode_inherit, mbind, M_bind at 1.
    rewrite (launch_valid h ctx p Inherited s Hvalid).
    destruct (h_spawn _ _ _ _ _ _) as [r f']. simpl in Hst.
    unfold Opencode.checkStatus. run_step.
    rewrite bool_decide_eq_false_2 by assumption. simpl.
    eexists; (split; [rewrite <- ?app_assoc; reflexivity | reflexivity]).
Qed.

(** A failed invocation is fatal and is reported once. When the setup
    succeeds and the invocation throws (the guard refuses the specifier, or
    the child's exit status is not zero), [run] posts the failure comment,
    writes the failure record with the invocation's message and exits with
    status 1: no second child, no cost command, no telemetry POST and no
    success record. *)
Theorem run_invocation_failure (h : Host) (c : Collab) (rev : Revision)
  (ctx : Context) (s : State) (inside keys : bool) (f1 f3 : FS) :
  c_buildContext c = inr ctx ->
  c_validateConfig c ctx = None ->
  c_gitSetup c ctx (fs s) = (None, f1) ->
  c_isInsideGitRepo c f1 = inr inside ->
  (if inside then c_ensureBranch c ctx f1
   else c_setupLocalRepository c ctx f1) = (None, f3) ->
  c_validateProviderKeys c = inr keys ->
  let bad := Opencode.invalidModel (opencodeModel ctx) in
  let child := h_spawn h (lit "opencode") (Opencode.cliArgs ctx)
                 (Opencode.cliInput ctx (prompt ctx)) (stdio_of rev) f3 in
  let msg := if bad then Opencode.invalidModelError (opencodeModel ctx)
             else Opencode.cliFailedError (fst child) in
  (bad = true \/ sp_status (fst child) <> Some 0) ->
  c_postComment c ctx (errorComment msg) = None ->
  c_writeOutput c false (OutFailure msg) = None ->
  exists evs,
    run h c rev s
    = (Exit 1,
       {| fs := if bad then f3 else snd child;
          trace := trace s ++ evs; ticks := S (ticks s) |})
    /\ List.filter io evs
       = [EvValidateConfig; EvGitSetup;
          (if inside then EvEnsureBranch else EvSetupLocalRepository)]
         ++ (if bad then []
             else [EvSpawn (lit "opencode") (Opencode.cliArgs ctx)
                     (Opencode.cliInput ctx (prompt ctx)) (stdio_of rev)])
         ++ [EvPostComment (errorComment msg);
             EvWriteOutput false (OutFailure msg); EvExit 1].
Proof.
  intros Hctx Hcfg Hgit Hinside Hbranch Hkeys bad child msg Hfail Hpost Hout.
  assert (Hinv : exists evs,
             forall tr,
               invoke h rev ctx (prompt ctx)
                 {| fs := f3; trace := tr; ticks := S (ticks s) |}
               = (Throw msg,
                  {| fs := if bad then f3 else snd child;
                     trace := tr ++ evs; ticks := S (ticks s) |})
               /\ List.filter io evs
                  = (if bad then []
                     else [EvSpawn (lit "opencode") (Opencode.cliArgs ctx)
                             (Opencode.cliInput ctx (prompt ctx)) (stdio_of rev)])).
  { subst msg. destruct bad eqn:Hbad.
    - exists [Opencode.startLog]. intros tr. split; [|reflexivity].
      now rewrite invoke_invalid.
    - destruct Hfail as [|Hst]; [discriminate|].
      unfold invoke. subst child. destruct rev; simpl stdio_of in *.
      + destruct (h_spawn h (lit "opencode") (Opencode.cliArgs ctx)
                    (Opencode.cliInput ctx (prompt ctx)) Piped f3)
          as [r f4] eqn:Hsp. simpl in Hst.
        eexists. intros tr.
        unfold Opencode.runOpencode, mbind, M_bind at 1 2.
        rewrite (launch_valid h ctx (prompt ctx) Piped _ Hbad).
        cbn [fs trace ticks]. rewrite Hsp.
        unfold Opencode.checkStatus. run_step.
        rewrite bool_decide_eq_false_2 by assumption.
        instantiate (1 := Opencode.launchLogs ctx
                          ++ [EvSpawn (lit "opencode") (Opencode.cliArgs ctx)
                                (Opencode.cliInput ctx (prompt ctx)) Piped]
                          ++ Opencode.mirrored r
                          ++ [EvLog LError [PStr (lit "opencode CLI exited with error: ");
                                            piece_of (sp_stderr r)]]).
        unfold Opencode.mirrored.
        destruct (truthy (or_else (sp_stdout r) []));
          destruct (truthy (or_else (sp_stderr r) [])); simpl;
          (split; [rewrite <- ?app_assoc; reflexivity | reflexivity]).
      + destruct (h_spawn h (lit "opencode") (Opencode.cliArgs ctx)
                    (Opencode.cliInput ctx (prompt ctx)) Inherited f3)
          as [r f4] eqn:Hsp. simpl in Hst.
        eexists. intros tr.
        unfold Opencode.runOpencode_inherit, mbind, M_bind at 1.
        rewrite (launch_valid h ctx (prompt ctx) Inherited _ Hbad).
        cbn [fs trace ticks]. rewrite Hsp.
        unfold Opencode.checkStatus. run_step.
        rewrite bool_decide_eq_false_2 by assumption. simpl.
        instantiate (1 := Opencode.launchLogs ctx
                          ++ [EvSpawn (lit "opencode") (Opencode.cliArgs ctx)
                                (Opencode.cliInput ctx (prompt ctx)) Inherited;
                              EvLog LError [PStr (lit "opencode CLI exited with error: ");
                                            piece_of (sp_stderr r)]]).
        split; [rewrite <- ?app_assoc; reflexivity | reflexivity]. }
  destruct Hinv as [ev_inv Hinv].
  exists (bannerLogs ctx ++ setupEvents ctx inside keys ++ ev_inv ++ failureEvents msg).
  split.
  - unfold run, attempt, handleError, postComment, writeOutput.
    unfold when, logs, log, of_sum, of_faults;
    unfold throw, try_catch, emit, get_fs, set_fs, effect, exit, now;
    unfold mbind, M_bind, mret, M_ret. cbn -[errorComment].
    rewrite Hctx. cbn -[errorComment]. rewrite Hcfg. cbn -[errorComment].
    rewrite Hgit. cbn -[errorComment]. rewrite Hinside. cbn -[errorComment].
    destruct inside, keys; cbn -[errorComment] in Hbranch |- *;
      rewrite Hbranch;
      cbn -[errorComment]; rewrite Hkeys; cbn -[errorComment];
      match goal with
      | |- context [invoke h rev ctx (prompt ctx)
                      {| fs := f3; trace := ?tr; ticks := _ |}] =>
          rewrite (proj1 (Hinv tr))
      end;
      cbn -[errorComment]; rewrite Hpost; cbn -[errorComment];
      rewrite Hout; cbn -[errorComment];
      unfold bannerLogs, setupEvents, failureEvents; cbn -[errorComment];
      rewrite <- !app_assoc; reflexivity.
  - rewrite !filter_io_app, (proj2 (Hinv [])).
    unfold setupEvents. destruct inside, keys; reflexivity.
Qed.

Lemma run_invocation_failure_witness :
  let ctx := Sample.context "7" "main" "p/m" in
  let h := Sample.child_host (Some 1) None (Some (lit "boom")) in
  let c := Sample.collab ctx None true in
  exists evs,
    run h c Capturing (Sample.start ∅)
    = (Exit 1, {| fs := ∅; trace := [] ++ evs; ticks := 1 |})
    /\ List.filter io evs
       = [EvValidateConfig; EvGitSetup; EvEnsureBranch;
          EvSpawn (lit "opencode") (Opencode.cliArgs ctx)
            (Opencode.cliInput ctx (prompt ctx)) Piped;
          EvPostComment (errorComment (lit "opencode CLI failed: boom"));
          EvWriteOutput false (OutFailure (lit "opencode CLI failed: boom"));
          EvExit 1].
Proof.
  intros ctx h c.
  refine (run_invocation_failure h c Capturing ctx (Sample.start ∅) true true
            ∅ ∅ _ _ _ _ _ _ _ _ _); try reflexivity.
  right. vm_compute. discriminate.
Defined.



(** The context is built outside the [try]: when [buildContext] throws,
    [run] ends with that uncaught error after its first log line; no comment
    is posted, no output record written and [process.exit] is not called. *)
Theorem run_context_failure_escapes (h : Host) (c : Collab) (rev : Revision)
  (s : State) (e : Exn) :
  c_buildContext c = inl e ->
  run h c rev s
  = (Throw e,
     record_events s [EvLog LInfo [PStr (lit "AI GitLab Runner Started")]]).
Proof.
  intros Hctx. unfold run, record_events.
  unfold logs, log, of_sum, throw, emit, mbind, M_bind.
  rewrite Hctx. reflexivity.
Qed.

Lemma run_context_failure_escapes_witness :
  let c := {| c_buildContext := inl (lit "CI_PROJECT_ID is not set");
              c_validateConfig := fun _ => None;
              c_gitSetup := fun _ f => (None, f);
              c_isInsideGitRepo := fun _ => inr true;
              c_setupLocalRepository := fun _ f => (None, f);
              c_ensureBranch := fun _ f => (None, f);
              c_validateProviderKeys := inr true;
              c_postComment := fun _ _ => None;
              c_writeOutput := fun _ _ => None |} in
  fst (run (Sample.child_host (Some 0) None None) c Capturing (Sample.start ∅))
  = Throw (lit "CI_PROJECT_ID is not set").
Proof.
  intros c.
  rewrite (run_context_failure_escapes (Sample.child_host (Some 0) None None) c
             Capturing (Sample.start ∅) (lit "CI_PROJECT_ID is not set") eq_refl).
  reflexivity.
Defined.

(** The cost a run reports is always a number: whatever the shell prints and
    [parseFloat] reads, the total is never NaN, and when it is zero it is the
    positive zero. *)
Theorem totalCost_is_a_number (h : Host) (t : Z) (s : State) :
  exists x s',
    computeCost h t s = (Ret x, s')
    /\ PrimFloat.is_nan x = false
    /\ (PrimFloat.is_zero x = true -> x = 0%float).
Proof.
  assert (Hor : forall y, PrimFloat.is_nan (or_zero y) = false
                          /\ (PrimFloat.is_zero (or_zero y) = true
                              -> or_zero y = 0%float)).
  { intros y. unfold or_zero.
    destruct (PrimFloat.is_nan y) eqn:En; [split; reflexivity|].
    destruct (PrimFloat.is_zero y) eqn:Ez; [split; reflexivity|].
    simpl. split; [exact En | congruence]. }
  destruct (computeCost_total h t s) as (evs & f' & Hrun & _).
  eexists _, _. split; [exact Hrun|].
  unfold totalCostOn.
  destruct (h_exec h (sessionIdCmd h) (fs s)) as [[e|out] f1];
    [split; reflexivity|].
  destruct (h_exec h (costCmd h (trim out)) f1) as [[e|out'] f2];
    [split; reflexivity|].
  apply Hor.
Qed.

(** The title sent with the telemetry is never empty and never longer than
    100 code units: it is the prompt cut at 100, and "AI Task" when the prompt
    is missing or empty. *)
Theorem taskTitle_bounds (ctx : Context) :
  taskTitle ctx <> []
  /\ (length (taskTitle ctx) <= 100)%nat
  /\ (forall p, prompt ctx = Some p -> p <> [] -> taskTitle ctx = take 100 p)
  /\ (prompt ctx = None \/ prompt ctx = Some [] -> taskTitle ctx = lit "AI Task").
Proof.
  assert (Hd : lit "AI Task" <> [] /\ (length (lit "AI Task") <= 100)%nat)
    by (vm_compute; split; [discriminate | lia]).
  unfold taskTitle, substring0.
  destruct (prompt ctx) as [[|x p]|]; cbn [fmap option_fmap option_map or_else].
  - change (take 100 (@nil N)) with (@nil N). cbn [truthy].
    split; [apply Hd|]. split; [apply Hd|]. split.
    + intros p [= <-] Hp. congruence.
    + reflexivity.
  - change (take 100 (x :: p)) with (x :: take 99 p). cbn [truthy].
    split; [discriminate|]. split; [simpl; rewrite length_take; lia|]. split.
    + intros q [= <-] _. reflexivity.
    + intros [H|H]; discriminate.
  - split; [apply Hd|]. split; [apply Hd|]. split.
    + intros p [=].
    + reflexivity.
Qed.

(** The seconds [run] reports lie within half a second of the elapsed time,
    halves going up, and are not negative when the clock did not go back. *)
Theorem roundSeconds_bounds (ms : Z) :
  1000 * roundSeconds ms - 500 <= ms < 1000 * roundSeconds ms + 500
  /\ (0 <= ms -> 0 <= roundSeconds ms).
Proof.
  unfold roundSeconds.
  pose proof (Z.div_mod (ms + 500) 1000 ltac:(lia)) as Hdm.
  pose proof (Z.mod_pos_bound (ms + 500) 1000 ltac:(lia)) as Hb.
  split; [lia|]. intros H. apply Z.div_pos; lia.
Qed.

End OrchestratorMore.

(** ** More on restoring *)

Section RestoreMore.
Import Session.



End RestoreMore.
